(** * The knowledge-base search front end (frontend/src/App.jsx)

    A shallow embedding of the React component [KnowledgeBaseApp]: its
    state, its four asynchronous operations (upload, search, stats, clear)
    and the part of its JSX that the properties below talk about, together
    with the fragment of JavaScript the component relies on (strings of
    UTF-16 code units, IEEE doubles, JSON values, property reads, the
    string and number coercions, [trim], [JSON.stringify]). *)

From Stdlib Require Import List ZArith NArith Bool String Ascii Lia.
From Stdlib Require Import QArith.
From Stdlib Require Import Floats.SpecFloat.
From Stdlib Require DecimalString.
Import ListNotations.

Set Implicit Arguments.
Set Warnings "-register-all".

Local Open Scope list_scope.
Local Close Scope Q_scope.

(** ** JavaScript values *)

Module JS.

(** A JavaScript string is a sequence of UTF-16 code units. *)
Definition code_unit := N.
Definition jsstr := list code_unit.

(** ASCII literals of the source text, as code units. *)
Definition lit (s : string) : jsstr :=
  map N_of_ascii (list_ascii_of_string s).

Fixpoint str_eqb (a b : jsstr) : bool :=
  match a, b with
  | [], [] => true
  | x :: a', y :: b' => N.eqb x y && str_eqb a' b'
  | _, _ => false
  end.

(** [a < b] on strings: lexicographic on code units. *)
Fixpoint str_ltb (a b : jsstr) : bool :=
  match a, b with
  | _, [] => false
  | [], _ :: _ => true
  | x :: a', y :: b' =>
      if N.ltb x y then true
      else if N.ltb y x then false
      else str_ltb a' b'
  end.

(** *** Numbers: IEEE 754 binary64 *)

Definition number := spec_float.
Definition prec : Z := 53.
Definition emax : Z := 1024.

Definition NaN : number := S754_nan.
Definition of_Z (z : Z) : number := binary_normalize prec emax z 0 false.

(** The integer a finite double stands for, when it is one. *)
Definition integer_of (m : positive) (e : Z) : option Z :=
  if (0 <=? e)%Z then Some (Z.pos m * 2 ^ e)%Z
  else
    let d := (2 ^ (- e))%Z in
    if (Z.pos m mod d =? 0)%Z then Some (Z.pos m / d)%Z else None.

Definition max_safe_integer : Z := 2 ^ 53 - 1.

Definition decimal (n : Z) : jsstr :=
  lit (DecimalString.NilZero.string_of_uint (N.to_uint (Z.to_N n))).

(** *** Values

    The values the component handles: what [response.json()] can produce,
    the object literals the component builds, and [undefined] (the result
    of reading an absent property). An object is the list of its own
    properties in enumeration order; keys are unique. *)
Inductive jsval :=
| JUndefined
| JNull
| JBool (b : bool)
| JNum (x : number)
| JStr (s : jsstr)
| JArr (items : list jsval)
| JObj (props : list (jsstr * jsval)).

(** Thrown values: every exception the component can meet is an [Error]
    object, of which only [message] is read. *)
Record Error := mkError { message : jsstr }.

Inductive completion (A : Type) :=
| Normal (a : A)
| Throw (e : Error).
Arguments Normal {A} a.
Arguments Throw {A} e.

Definition cbind {A B} (c : completion A) (k : A -> completion B) : completion B :=
  match c with
  | Normal a => k a
  | Throw e => Throw e
  end.

(** What the engine decides and the language leaves open or what is not
    modelled digit by digit: the texts of the TypeErrors, the shortest
    round-trip digits of a double that is not a safe integer, and the
    parsing of a string as a numeric literal. *)
Class Engine := {
  msg_read_of_nullish : jsval -> jsstr -> jsstr;
  msg_not_primitive : jsstr;
  digits_of_double : positive -> Z -> jsstr;
  StringToNumber : jsstr -> number
}.

Fixpoint lookup (k : jsstr) (props : list (jsstr * jsval)) : option jsval :=
  match props with
  | [] => None
  | (k', v) :: rest => if str_eqb k k' then Some v else lookup k rest
  end.

Definition has_own (k : jsstr) (props : list (jsstr * jsval)) : bool :=
  match lookup k props with Some _ => true | None => false end.

Section Coercions.
Context {engine : Engine}.

(** Number::toString (radix 10). Integers up to 2^53 - 1 in magnitude print
    as their decimal expansion. *)
Definition NumberToString (x : number) : jsstr :=
  match x with
  | S754_nan => lit "NaN"
  | S754_zero _ => lit "0"
  | S754_infinity s => (if s then lit "-" else []) ++ lit "Infinity"
  | S754_finite s m e =>
      (if s then lit "-" else []) ++
      match integer_of m e with
      | Some n => if (n <=? max_safe_integer)%Z then decimal n
                  else digits_of_double m e
      | None => digits_of_double m e
      end
  end.

(** [v.k] for the property names the component reads from parsed JSON
    (statistics, documents, chunks, detail, total_documents, total_chunks):
    none of them is a built-in property of strings, arrays or
    Object.prototype, so on anything but an object with that own property
    the read gives [undefined]; on [undefined] and [null] it throws. *)
Definition get (v : jsval) (k : jsstr) : completion jsval :=
  match v with
  | JUndefined | JNull => Throw (mkError (msg_read_of_nullish v k))
  | JObj props =>
      Normal (match lookup k props with Some x => x | None => JUndefined end)
  | _ => Normal JUndefined
  end.

(** ToString, as a template literal applies it. An array prints through
    [join]; a plain object prints through Object.prototype.toString unless
    it has an own (hence not callable) [toString] property, in which case
    OrdinaryToPrimitive finds no usable method and throws. *)
Fixpoint ToString (v : jsval) : completion jsstr :=
  match v with
  | JUndefined => Normal (lit "undefined")
  | JNull => Normal (lit "null")
  | JBool true => Normal (lit "true")
  | JBool false => Normal (lit "false")
  | JNum x => Normal (NumberToString x)
  | JStr s => Normal s
  | JArr items =>
      (fix join (l : list jsval) : completion jsstr :=
         match l with
         | [] => Normal []
         | x :: rest =>
             cbind (match x with
                    | JUndefined | JNull => Normal []
                    | _ => ToString x
                    end)
               (fun sx =>
                  match rest with
                  | [] => Normal sx
                  | _ :: _ => cbind (join rest)
                                (fun sr => Normal (sx ++ lit "," ++ sr))
                  end)
         end) items
  | JObj props =>
      if has_own (lit "toString") props
      then Throw (mkError msg_not_primitive)
      else Normal (lit "[object Object]")
  end.

(** ToPrimitive: on the values above both hints end in the same place. *)
Definition ToPrimitive (v : jsval) : completion jsval :=
  match v with
  | JArr _ | JObj _ => cbind (ToString v) (fun s => Normal (JStr s))
  | _ => Normal v
  end.

(** ToNumber. *)
Definition ToNumber (v : jsval) : completion number :=
  match v with
  | JUndefined => Normal NaN
  | JNull => Normal (S754_zero false)
  | JBool true => Normal (of_Z 1)
  | JBool false => Normal (S754_zero false)
  | JNum x => Normal x
  | JStr s => Normal (StringToNumber s)
  | JArr _ | JObj _ => cbind (ToString v) (fun s => Normal (StringToNumber s))
  end.

(** [a > b]: both operands are made primitive, left one first; two strings
    compare as strings, anything else as numbers, and a comparison with NaN
    is false. *)
Definition gt (a b : jsval) : completion bool :=
  cbind (ToPrimitive a) (fun pa =>
  cbind (ToPrimitive b) (fun pb =>
    match pa, pb with
    | JStr sa, JStr sb => Normal (str_ltb sb sa)
    | _, _ =>
        cbind (ToNumber pa) (fun na =>
        cbind (ToNumber pb) (fun nb => Normal (SFltb nb na)))
    end)).

End Coercions.

(** ToBoolean. *)
Definition truthy (v : jsval) : bool :=
  match v with
  | JUndefined | JNull => false
  | JBool b => b
  | JNum x =>
      match x with
      | S754_zero _ | S754_nan => false
      | _ => true
      end
  | JStr s => match s with [] => false | _ => true end
  | JArr _ | JObj _ => true
  end.

(** *** String.prototype.trim

    WhiteSpace and LineTerminator of the language: TAB, LF, VT, FF, CR,
    SPACE, NBSP, the Unicode space separators, LS, PS and the BOM. *)
Definition is_white_space (c : code_unit) : bool :=
  ((9 <=? c) && (c <=? 13) || (c =? 32) || (c =? 160) || (c =? 5760)
   || (8192 <=? c) && (c <=? 8202) || (c =? 8232) || (c =? 8233)
   || (c =? 8239) || (c =? 8287) || (c =? 12288) || (c =? 65279))%N.

Fixpoint trimStart (s : jsstr) : jsstr :=
  match s with
  | c :: rest => if is_white_space c then trimStart rest else s
  | [] => []
  end.

Definition trimEnd (s : jsstr) : jsstr := rev (trimStart (rev s)).

Definition trim (s : jsstr) : jsstr := trimEnd (trimStart s).

(** *** JSON.stringify *)

Definition hex_digit (n : N) : code_unit :=
  (if n <? 10 then 48 + n else 87 + n)%N.

Definition UnicodeEscape (c : code_unit) : jsstr :=
  lit "\u" ++
  [hex_digit (c / 4096 mod 16); hex_digit (c / 256 mod 16);
   hex_digit (c / 16 mod 16); hex_digit (c mod 16)]%N.

Definition is_lead_surrogate (c : code_unit) : bool :=
  ((55296 <=? c) && (c <=? 56319))%N.
Definition is_trail_surrogate (c : code_unit) : bool :=
  ((56320 <=? c) && (c <=? 57343))%N.

Definition double_quote : code_unit := 34%N.
Definition backslash : code_unit := 92%N.

(** One code unit that is not part of a surrogate pair. *)
Definition quote_unit (c : code_unit) : jsstr :=
  (if c =? 8 then lit "\b"
   else if c =? 9 then lit "\t"
   else if c =? 10 then lit "\n"
   else if c =? 12 then lit "\f"
   else if c =? 13 then lit "\r"
   else if c =? double_quote then [backslash; double_quote]
   else if c =? backslash then [backslash; backslash]
   else if (c <? 32) || is_lead_surrogate c || is_trail_surrogate c
        then UnicodeEscape c
   else [c])%N.

Fixpoint quote_units (s : jsstr) : jsstr :=
  match s with
  | [] => []
  | c :: rest =>
      match rest with
      | d :: rest' =>
          if is_lead_surrogate c && is_trail_surrogate d
          then c :: d :: quote_units rest'
          else quote_unit c ++ quote_units rest
      | [] => quote_unit c
      end
  end.

Definition QuoteJSONString (s : jsstr) : jsstr :=
  double_quote :: quote_units s ++ [double_quote].

Fixpoint join_with (sep : jsstr) (parts : list jsstr) : jsstr :=
  match parts with
  | [] => []
  | [p] => p
  | p :: rest => p ++ sep ++ join_with sep rest
  end.

Definition is_finite (x : number) : bool :=
  match x with
  | S754_zero _ | S754_finite _ _ _ => true
  | S754_infinity _ | S754_nan => false
  end.

Section Stringify.
Context {engine : Engine}.

(** SerializeJSONProperty without replacer or indentation; [None] stands
    for [undefined]. Parsed JSON has no callable [toJSON]. *)
Fixpoint SerializeJSONProperty (v : jsval) : option jsstr :=
  match v with
  | JUndefined => None
  | JNull => Some (lit "null")
  | JBool true => Some (lit "true")
  | JBool false => Some (lit "false")
  | JNum x => Some (if is_finite x then NumberToString x else lit "null")
  | JStr s => Some (QuoteJSONString s)
  | JArr items =>
      Some (lit "[" ++
            join_with (lit ",")
              ((fix elements (l : list jsval) : list jsstr :=
                  match l with
                  | [] => []
                  | x :: rest =>
                      match SerializeJSONProperty x with
                      | Some sx => sx
                      | None => lit "null"
                      end :: elements rest
                  end) items) ++
            lit "]")
  | JObj props =>
      Some (lit "{" ++
            join_with (lit ",")
              ((fix members (l : list (jsstr * jsval)) : list jsstr :=
                  match l with
                  | [] => []
                  | (k, x) :: rest =>
                      match SerializeJSONProperty x with
                      | Some sx =>
                          (QuoteJSONString k ++ lit ":" ++ sx) :: members rest
                      | None => members rest
                      end
                  end) props) ++
            lit "}")
  end.

Definition JSON_stringify (v : jsval) : option jsstr := SerializeJSONProperty v.

End Stringify.

End JS.

(** ** The HTTP boundary, as [fetch] shows it *)

Module Http.
Import JS.

Inductive Method := GET | POST | DELETE.

Record File := { name : jsstr; content : list N }.

Inductive Body :=
| NoBody
| FormData (entries : list (jsstr * File))
| Text (s : jsstr).

Record Request := {
  url : jsstr;
  method : Method;
  headers : list (jsstr * jsstr);
  body : Body
}.

(** A response: its [ok] flag and what [response.json()] settles to (a
    parsed value, or a rejection when the body is not JSON). *)
Record Response := { ok : bool; json : completion jsval }.

End Http.

(** ** The component *)

Module App.
Import JS Http.

(** The six [useState] cells. *)
Record State := {
  files : list File;
  query : jsstr;
  answer : jsval;
  loading : bool;
  stats : jsval;
  uploadStatus : jsstr
}.

Definition initial : State :=
  {| files := []; query := []; answer := JNull; loading := false;
     stats := JNull; uploadStatus := [] |}.

(** What an operation does to the outside, in order. *)
Inductive Event :=
| Alert (msg : jsstr)
| Confirm (msg : jsstr)
| Fetch (req : Request)
| ConsoleError (label : jsstr) (e : Error)
| SetValue (id value : jsstr).

(** Work left for later turns of the event loop: [fetchStats] is always
    called without [await], so what follows its [await fetch(...)] runs
    after its caller has finished. *)
Inductive Task :=
| StatsArrived (settled : completion Response).

Record World := {
  ui : State;
  log : list Event;
  pending : list Task
}.

(** What the outside answers: the build-time variable, the network (a
    [fetch] rejects or resolves to a response) and the user at
    [window.confirm]. *)
Record Env := {
  VITE_API_URL : option jsstr;
  network : Request -> completion Response;
  confirms : jsstr -> bool
}.

(** Async functions: state and log are kept when an exception travels. *)
Definition Async (A : Type) := World -> completion A * World.

Definition ret {A} (a : A) : Async A := fun w => (Normal a, w).

Definition bind {A B} (c : Async A) (k : A -> Async B) : Async B :=
  fun w =>
    match c w with
    | (Normal a, w') => k a w'
    | (Throw e, w') => (Throw e, w')
    end.

Declare Scope async_scope.
Delimit Scope async_scope with async.
Notation "x <- c ;; k" := (bind c (fun x => k))
  (at level 61, c at next level, right associativity) : async_scope.
Notation "c ;; k" := (bind c (fun _ => k))
  (at level 61, right associativity) : async_scope.
Local Open Scope async_scope.

(** [await] of something already settled, and a throwing expression. *)
Definition await {A} (c : completion A) : Async A := fun w => (c, w).

Definition try_catch_finally {A} (block : Async A) (handler : Error -> Async A)
    (finalizer : Async unit) : Async A :=
  fun w =>
    let (r1, w1) := block w in
    let (r2, w2) := match r1 with
                    | Normal a => (Normal a, w1)
                    | Throw e => handler e w1
                    end in
    match finalizer w2 with
    | (Normal _, w3) => (r2, w3)
    | (Throw e, w3) => (Throw e, w3)
    end.

Definition try_catch {A} (block : Async A) (handler : Error -> Async A) : Async A :=
  try_catch_finally block handler (ret tt).

Definition modify (f : State -> State) : Async unit :=
  fun w => (Normal tt, {| ui := f (ui w); log := log w; pending := pending w |}).

Definition emit (e : Event) : Async unit :=
  fun w => (Normal tt, {| ui := ui w; log := log w ++ [e]; pending := pending w |}).

Definition defer (t : Task) : Async unit :=
  fun w => (Normal tt, {| ui := ui w; log := log w; pending := pending w ++ [t] |}).

Definition the_state : Async State := fun w => (Normal (ui w), w).

Definition setFiles (v : list File) : Async unit :=
  modify (fun s => {| files := v; query := query s; answer := answer s;
                      loading := loading s; stats := stats s;
                      uploadStatus := uploadStatus s |}).
Definition setQuery (v : jsstr) : Async unit :=
  modify (fun s => {| files := files s; query := v; answer := answer s;
                      loading := loading s; stats := stats s;
                      uploadStatus := uploadStatus s |}).
Definition setAnswer (v : jsval) : Async unit :=
  modify (fun s => {| files := files s; query := query s; answer := v;
                      loading := loading s; stats := stats s;
                      uploadStatus := uploadStatus s |}).
Definition setLoading (v : bool) : Async unit :=
  modify (fun s => {| files := files s; query := query s; answer := answer s;
                      loading := v; stats := stats s;
                      uploadStatus := uploadStatus s |}).
Definition setStats (v : jsval) : Async unit :=
  modify (fun s => {| files := files s; query := query s; answer := answer s;
                      loading := loading s; stats := v;
                      uploadStatus := uploadStatus s |}).
Definition setUploadStatus (v : jsstr) : Async unit :=
  modify (fun s => {| files := files s; query := query s; answer := answer s;
                      loading := loading s; stats := stats s;
                      uploadStatus := v |}).

Definition alert (msg : jsstr) : Async unit := emit (Alert msg).

Definition check_mark : code_unit := 10003%N.
Definition ballot_x : code_unit := 10007%N.

Section Component.
Context {engine : Engine}.
Variable env : Env.

(** [import.meta.env.VITE_API_URL || 'http://localhost:8000'] *)
Definition API_URL : jsstr :=
  match VITE_API_URL env with
  | Some u => if truthy (JStr u) then u else lit "http://localhost:8000"
  | None => lit "http://localhost:8000"
  end.

Definition fetch (req : Request) : Async Response :=
  emit (Fetch req) ;; await (network env req).

Definition window_confirm (msg : jsstr) : Async bool :=
  emit (Confirm msg) ;; ret (confirms env msg).

Definition console_error (label : jsstr) (e : Error) : Async unit :=
  emit (ConsoleError label e).

(** [`${v}`] and [v.k] inside an async function. *)
Definition str (v : jsval) : Async jsstr := await (ToString v).
Definition prop (v : jsval) (k : string) : Async jsval := await (get v (lit k)).

Definition stats_request : Request :=
  {| url := API_URL ++ lit "/stats"; method := GET; headers := []; body := NoBody |}.

(** [fetchStats], from the moment its response has settled. *)
Definition fetchStats_resumed (settled : completion Response) : Async unit :=
  try_catch
    (response <- await settled ;;
     result <- await (json response) ;;
     setStats result)
    (fun error => console_error (lit "Error fetching stats:") error).

(** The call [fetchStats()]: the request leaves at once, the rest waits. *)
Definition fetchStats : Async unit :=
  emit (Fetch stats_request) ;;
  defer (StatsArrived (network env stats_request)).

Definition handleFileChange (target_files : list File) : Async unit :=
  setFiles target_files.

Definition upload_request (fs : list File) : Request :=
  {| url := API_URL ++ lit "/upload"; method := POST; headers := [];
     body := FormData (map (fun file => (lit "files", file)) fs) |}.

Definition uploadDocuments : Async unit :=
  s <- the_state ;;
  if (List.length (files s) =? 0)%nat then
    alert (lit "Please select files to upload")
  else
    setLoading true ;;
    setUploadStatus (lit "Uploading and processing documents...") ;;
    try_catch_finally
      (response <- fetch (upload_request (files s)) ;;
       result <- await (json response) ;;
       if ok response then
         statistics <- prop result "statistics" ;;
         documents <- prop statistics "documents" ;;
         documents <- str documents ;;
         statistics <- prop result "statistics" ;;
         chunks <- prop statistics "chunks" ;;
         chunks <- str chunks ;;
         setUploadStatus
           (check_mark :: lit " Successfully processed " ++ documents ++
            lit " documents (" ++ chunks ++ lit " chunks)") ;;
         setFiles [] ;;
         emit (SetValue (lit "file-upload") []) ;;
         fetchStats
       else
         detail <- prop result "detail" ;;
         detail <- str detail ;;
         setUploadStatus (ballot_x :: lit " Error: " ++ detail))
      (fun error => setUploadStatus (ballot_x :: lit " Error: " ++ message error))
      (setLoading false).

Definition query_body (question : jsstr) : jsval :=
  JObj [(lit "question", JStr question);
        (lit "top_k", JNum (of_Z 5));
        (lit "include_sources", JBool true)].

Definition query_request (question : jsstr) : Request :=
  {| url := API_URL ++ lit "/query"; method := POST;
     headers := [(lit "Content-Type", lit "application/json")];
     body := match JSON_stringify (query_body question) with
             | Some text => Text text
             | None => NoBody
             end |}.

Definition searchKnowledgeBase : Async unit :=
  s <- the_state ;;
  if negb (truthy (JStr (trim (query s)))) then
    alert (lit "Please enter a question")
  else
    setLoading true ;;
    setAnswer JNull ;;
    try_catch_finally
      (response <- fetch (query_request (query s)) ;;
       result <- await (json response) ;;
       if ok response then
         setAnswer result
       else
         detail <- prop result "detail" ;;
         detail <- str detail ;;
         setAnswer (JObj [(lit "answer", JStr (lit "Error: " ++ detail));
                          (lit "sources", JArr [])]))
      (fun error =>
         setAnswer (JObj [(lit "answer", JStr (lit "Error: " ++ message error));
                          (lit "sources", JArr [])]))
      (setLoading false).

Definition clear_request : Request :=
  {| url := API_URL ++ lit "/clear"; method := DELETE; headers := []; body := NoBody |}.

Definition clearKnowledgeBase : Async unit :=
  confirmed <- window_confirm (lit "Are you sure you want to clear all documents?") ;;
  if negb confirmed then
    ret tt
  else
    setLoading true ;;
    try_catch_finally
      (response <- fetch clear_request ;;
       result <- await (json response) ;;
       if ok response then
         setUploadStatus (check_mark :: lit " Knowledge base cleared") ;;
         setStats JNull ;;
         setAnswer JNull
       else
         detail <- prop result "detail" ;;
         detail <- str detail ;;
         setUploadStatus (ballot_x :: lit " Error: " ++ detail))
      (fun error => setUploadStatus (ballot_x :: lit " Error: " ++ message error))
      (setLoading false).

(** Running an operation from a state: its own turn, then the deferred
    work. *)
Definition resume (t : Task) : Async unit :=
  match t with
  | StatsArrived settled => fetchStats_resumed settled
  end.

Definition settle (w : World) : World :=
  fold_left (fun w' t => snd (resume t w'))
    (pending w) {| ui := ui w; log := log w; pending := [] |}.

Definition run (op : Async unit) (s : State) : completion unit * World :=
  let (r, w) := op {| ui := s; log := []; pending := [] |} in (r, settle w).

(** The effect on mount: [useEffect(() => { fetchStats(); }, [])]. *)
Definition mount : Async unit := fetchStats.

End Component.

End App.

(** ** What the component renders *)

Module View.
Import JS Http App.
Local Open Scope string_scope.

(** The functions the JSX binds to events. *)
Inductive Handler :=
| call_uploadDocuments
| call_searchKnowledgeBase
| call_clearKnowledgeBase
| call_handleFileChange
| call_setQuery.

Inductive Attr :=
| Lit (s : string)
| Dyn (v : jsval)
| Flag
| On (h : Handler)
| Style (declarations : list (string * string)).

(** A rendered tree. [Hole v] is an expression child [{v}] (React shows
    strings and numbers and skips booleans, null and undefined).
    [AnswerCard a] marks the place of the answer card (JSX lines 274-308)
    of answer [a] in a tree whose card is kept folded; the card itself,
    which can throw, is [answer_card] below. *)
Inductive Node :=
| Elem (tag : string) (attrs : list (string * Attr)) (children : list Node)
| Txt (s : jsstr)
| Hole (v : jsval)
| AnswerCard (a : jsval).

Definition div (class : string) (children : list Node) : Node :=
  Elem "div" [("className", Lit class)] children.
Definition span (class : string) (children : list Node) : Node :=
  Elem "span" [("className", Lit class)] children.
Definition icon (component : string) (style : list (string * string)) : Node :=
  Elem component [("style", Style style)] [].
Definition text (s : string) : Node := Txt (lit s).

Definition zero : jsval := JNum (S754_zero false).

Fixpoint mapi {A B} (f : A -> nat -> B) (l : list A) (i : nat) : list B :=
  match l with
  | [] => []
  | x :: rest => f x i :: mapi f rest (S i)
  end.

Section Render.
Context {engine : Engine}.

Definition header : Node :=
  div "header"
    [Elem "h1" [] [Txt (([55357; 56589]%N ++ lit " Knowledge Base Search Engine")%list)];
     Elem "p" [] [text "Upload documents and search with AI-powered RAG using Ollama"]].

(** The element of [{stats && stats.total_chunks > 0 && (<div
    className="stats-bar">...)}], with the two values its spans show. *)
Definition stats_bar_element (st : State) (total_documents total_chunks : jsval) : Node :=
  div "stats-bar"
    [div "stats-items"
       [div "stat-item"
          [icon "FileText" [("color", "#667eea")];
           span "stat-label"
             [text "Documents: ";
              span "stat-value" [Hole total_documents]]];
        div "stat-item"
          [icon "Database" [("color", "#48bb78")];
           span "stat-label"
             [text "Chunks: ";
              span "stat-value" [Hole total_chunks]]]];
     Elem "button"
       [("onClick", On call_clearKnowledgeBase);
        ("className", Lit "btn btn-danger");
        ("disabled", Dyn (JBool (loading st)))]
       [Elem "Trash2" [] []; text "Clear All"]].

(** The whole expression: [&&] gives its left operand when that is falsy. *)
Definition stats_bar (st : State) : completion Node :=
  if truthy (stats st) then
    cbind (get (stats st) (lit "total_chunks")) (fun total_chunks =>
    cbind (gt total_chunks zero) (fun positive =>
      if positive : bool then
        cbind (get (stats st) (lit "total_documents")) (fun total_documents =>
        cbind (get (stats st) (lit "total_chunks")) (fun total_chunks =>
          Normal (stats_bar_element st total_documents total_chunks)))
      else Normal (Hole (JBool false))))
  else Normal (Hole (stats st)).

Definition file_input : Node :=
  Elem "input"
    [("type", Lit "file");
     ("multiple", Flag);
     ("accept", Lit ".pdf,.txt,.docx,.pptx");
     ("onChange", On call_handleFileChange);
     ("id", Lit "file-upload")]
    [].

(** [(file, index) => <div key={index} className="file-item">{file.name}</div>] *)
Definition file_item (file : File) (index : nat) : Node :=
  Elem "div"
    [("key", Dyn (JNum (of_Z (Z.of_nat index))));
     ("className", Lit "file-item")]
    [Hole (JStr (name file))].

Definition selected_files (st : State) : Node :=
  if (0 <? List.length (files st))%nat then
    div "selected-files"
      [span "selected-files-label"
         [text "Selected Files (";
          Hole (JNum (of_Z (Z.of_nat (List.length (files st)))));
          text "):"];
       div "files-list" (mapi file_item (files st) 0)]
  else Hole (JBool false).

Definition busy_or (st : State) (busy : string) (component idle : string) : Node :=
  if loading st then
    Elem "Fragment" []
      [Elem "Loader" [("className", Lit "animate-spin")] []; text busy]
  else
    Elem "Fragment" [] [Elem component [] []; text idle].

Definition upload_card (st : State) : Node :=
  div "card"
    [div "card-header"
       [icon "Upload" [("color", "#667eea")];
        Elem "h2" [] [text "Upload Documents"]];
     div "upload-dropzone"
       [file_input;
        Elem "label"
          [("htmlFor", Lit "file-upload");
           ("style", Style [("cursor", "pointer"); ("display", "block")])]
          [icon "Upload" [("margin", "0 auto 1rem")];
           div "upload-dropzone-text" [text "Click to select files or drag and drop"];
           div "upload-dropzone-hint" [text "PDF, TXT, DOCX, PPTX"]]];
     selected_files st;
     Elem "button"
       [("onClick", On call_uploadDocuments);
        ("disabled",
         Dyn (JBool (loading st || (List.length (files st) =? 0)%nat)));
        ("className", Lit "btn btn-primary")]
       [busy_or st "Processing..." "Upload" "Upload & Process"];
     if truthy (JStr (uploadStatus st))
     then div "status-message" [Hole (JStr (uploadStatus st))]
     else Hole (JStr (uploadStatus st))].

Definition search_card (st : State) : Node :=
  div "card"
    [div "card-header"
       [icon "Search" [("color", "#48bb78")];
        Elem "h2" [] [text "Search Knowledge Base"]];
     Elem "textarea"
       [("value", Dyn (JStr (query st)));
        ("onChange", On call_setQuery);
        ("placeholder", Lit "Ask a question about your documents...");
        ("className", Lit "search-textarea");
        ("rows", Lit "5")]
       [];
     Elem "button"
       [("onClick", On call_searchKnowledgeBase);
        ("disabled",
         Dyn (JBool (loading st || negb (truthy (JStr (trim (query st)))))));
        ("className", Lit "btn btn-success")]
       [busy_or st "Searching..." "Search" "Search"]].

(** [{answer && (...)}] with the card kept folded: no part of the card is
    evaluated here. [answer_section_unfolded] evaluates it. *)
Definition answer_section (st : State) : Node :=
  if truthy (answer st) then AnswerCard (answer st) else Hole (answer st).

Definition cards_grid (st : State) : Node :=
  div "cards-grid" [upload_card st; search_card st].

Definition page (st : State) (bar : Node) : Node :=
  div "app-container"
    [div "main-content" [header; bar; cards_grid st; answer_section st]].

(** The page around the answer card: header, stats bar and the two cards
    evaluated, the answer card kept folded. This is not yet what the
    component returns: the return expression also evaluates the card, and
    throws when the card does. [render_unfolded] below is the whole return
    expression; whenever it gives a tree, [render] gives the same tree
    with the card folded. *)
Definition render (st : State) : completion Node :=
  cbind (stats_bar st) (fun bar => Normal (page st bar)).

End Render.

(** *** Looking into a rendered tree *)

Fixpoint attr (k : string) (attrs : list (string * Attr)) : option Attr :=
  match attrs with
  | [] => None
  | (k', a) :: rest => if String.eqb k k' then Some a else attr k rest
  end.

(** All nodes of the tree that satisfy [p], in document order. *)
Fixpoint select (p : Node -> bool) (n : Node) : list Node :=
  (if p n then [n] else []) ++
  match n with
  | Elem _ _ children => flat_map (select p) children
  | _ => []
  end.

Definition has_class (c : string) (n : Node) : bool :=
  match n with
  | Elem _ attrs _ =>
      match attr "className" attrs with
      | Some (Lit c') => String.eqb c c'
      | _ => false
      end
  | _ => false
  end.

Definition handler_eqb (a b : Handler) : bool :=
  match a, b with
  | call_uploadDocuments, call_uploadDocuments
  | call_searchKnowledgeBase, call_searchKnowledgeBase
  | call_clearKnowledgeBase, call_clearKnowledgeBase
  | call_handleFileChange, call_handleFileChange
  | call_setQuery, call_setQuery => true
  | _, _ => false
  end.

(** The element binds one of its events to [h]. *)
Definition binds (h : Handler) (n : Node) : bool :=
  match n with
  | Elem _ attrs _ =>
      existsb (fun ka => match snd ka with
                         | On h' => handler_eqb h h'
                         | _ => false
                         end) attrs
  | _ => false
  end.

Definition is_file_input (n : Node) : bool :=
  match n with
  | Elem tag attrs _ =>
      String.eqb tag "input" &&
      match attr "type" attrs with
      | Some (Lit t) => String.eqb t "file"
      | _ => false
      end
  | _ => false
  end.

Definition is_answer_card (n : Node) : bool :=
  match n with
  | AnswerCard _ => true
  | _ => false
  end.

Definition children_of (n : Node) : list Node :=
  match n with
  | Elem _ _ children => children
  | _ => []
  end.

Definition attrs_of (n : Node) : list (string * Attr) :=
  match n with
  | Elem _ attrs _ => attrs
  | _ => []
  end.

(** The entries of an [accept] attribute: split at the commas. *)
Fixpoint split_commas (s : string) : list string :=
  match s with
  | EmptyString => [EmptyString]
  | String c rest =>
      if Ascii.eqb c ","%char then EmptyString :: split_commas rest
      else match split_commas rest with
           | first :: others => String c first :: others
           | [] => [String c EmptyString]
           end
  end.

End View.

(** ** The confidence scorer *)

Module Scorer.
Local Open Scope Q_scope.

Inductive Confidence := high | medium | low.

(** Modelled from the spec: the Confidence Scorer lives in the backend
    (backend/core/rag_engine.py), which is not among the sources; this is
    section 4.5 word for word. A RetrievalResult is a sequence of chunk
    references with their similarity scores, best first; the label is
    "high when > 0.70, medium when in [0.50, 0.70], low when < 0.50" on the
    top score, and low on an empty result. *)
Record Retrieved := { chunk : string; similarity_score : Q }.

Definition RetrievalResult := list Retrieved.

Definition Qlt_bool (x y : Q) : bool := negb (Qle_bool y x).

Definition score (retrieval : RetrievalResult) : Confidence :=
  match retrieval with
  | [] => low
  | top :: _ =>
      let s := similarity_score top in
      if Qlt_bool (70 # 100) s then high
      else if Qle_bool (50 # 100) s && Qle_bool s (70 # 100) then medium
      else low
  end.

End Scorer.

(** ** A concrete engine and environment for running the component *)

Module Sample.
Import JS Http App.

(** The error texts are V8's. The two numeric conversions that [Engine]
    leaves open are not reached by the runs below and answer with a fixed
    value. *)
Definition engine : Engine :=
  {| msg_read_of_nullish := fun v k =>
       lit "Cannot read properties of " ++
       (match v with JNull => lit "null" | _ => lit "undefined" end) ++
       lit " (reading '" ++ k ++ lit "')";
     msg_not_primitive := lit "Cannot convert object to primitive value";
     digits_of_double := fun _ _ => lit "NaN";
     StringToNumber := fun _ => NaN |}.

(** A server that answers every request the same way, and a user who
    confirms. *)
Definition answering (settled : completion Response) : Env :=
  {| VITE_API_URL := None;
     network := fun _ => settled;
     confirms := fun _ => true |}.

Definition num (z : Z) : jsval := JNum (of_Z z).

Definition notes_pdf : File := {| name := lit "notes.pdf"; content := [37; 80; 68; 70]%N |}.
Definition setup_exe : File := {| name := lit "setup.exe"; content := [77; 90]%N |}.

Definition selected (fs : list File) : State :=
  {| files := fs; query := []; answer := JNull; loading := false;
     stats := JNull; uploadStatus := [] |}.

Definition asking (question : string) : State :=
  {| files := []; query := lit question; answer := JNull; loading := false;
     stats := JNull; uploadStatus := [] |}.

Definition counts : list (jsstr * jsval) :=
  [(lit "total_documents", num 2); (lit "total_chunks", num 17)].

Definition populated : State :=
  {| files := []; query := [];
     answer := JObj [(lit "answer", JStr (lit "Blue.")); (lit "sources", JArr [])];
     loading := false;
     stats := JObj counts;
     uploadStatus := [] |}.

(** Bodies a server may send. *)
Definition processed : Response :=
  {| ok := true;
     json := Normal (JObj [(lit "message", JStr (lit "Documents processed"));
                           (lit "statistics",
                            JObj [(lit "documents", num 2); (lit "chunks", num 17)])]) |}.

Definition processed_as_specified : Response :=
  {| ok := true;
     json := Normal (JObj [(lit "documents_processed", num 2);
                           (lit "chunks_created", num 17);
                           (lit "per_document_errors", JArr [])]) |}.

Definition cleared : Response :=
  {| ok := true;
     json := Normal (JObj [(lit "message", JStr (lit "Knowledge base cleared"))]) |}.

Definition no_content : Response :=
  {| ok := true; json := Throw (mkError (lit "Unexpected end of JSON input")) |}.

Definition unavailable : Response :=
  {| ok := false;
     json := Normal (JObj [(lit "detail", JStr (lit "Ollama is not running"))]) |}.


End Sample.

(** ** What the properties observe *)

Import JS Http App View.
Local Open Scope async_scope.

(** The requests an operation sent, in order. *)
Definition requests (events : list Event) : list Request :=
  flat_map (fun e => match e with Fetch req => [req] | _ => [] end) events.

Definition final {A} (r : completion A * World) : State := ui (snd r).

(** Empty or made of white space only. *)
Definition blank (q : jsstr) : bool := forallb is_white_space q.

Definition confirm_text : jsstr := lit "Are you sure you want to clear all documents?".

Definition quoted (k : string) : jsstr := double_quote :: lit k ++ [double_quote].

(** The text of the query request, around the string literal that holds
    the question. *)
Definition query_text (question_literal : jsstr) : jsstr :=
  lit "{" ++ quoted "question" ++ lit ":" ++ question_literal ++ lit "," ++
  quoted "top_k" ++ lit ":5," ++ quoted "include_sources" ++ lit ":true}".

(** How the receiving side reads a JSON string literal back: the escapes
    of the JSON grammar (RFC 8259, section 7). *)
Definition hex_value (c : code_unit) : option N :=
  (if (48 <=? c) && (c <=? 57) then Some (c - 48)
   else if (97 <=? c) && (c <=? 102) then Some (c - 87)
   else if (65 <=? c) && (c <=? 70) then Some (c - 55)
   else None)%N.

Definition hex4 (a b c d : code_unit) : option code_unit :=
  match hex_value a, hex_value b, hex_value c, hex_value d with
  | Some x, Some y, Some z, Some w => Some (4096 * x + 256 * y + 16 * z + w)%N
  | _, _, _, _ => None
  end.

Definition escaped (e : code_unit) : option code_unit :=
  (if e =? 98 then Some 8
   else if e =? 116 then Some 9
   else if e =? 110 then Some 10
   else if e =? 102 then Some 12
   else if e =? 114 then Some 13
   else if e =? 34 then Some 34
   else if e =? 92 then Some 92
   else if e =? 47 then Some 47
   else None)%N.

Fixpoint unquote_units (s : jsstr) : option jsstr :=
  match s with
  | [] => Some []
  | c :: rest =>
      if (c =? backslash)%N then
        match rest with
        | e :: rest' =>
            if (e =? 117)%N then
              match rest' with
              | h1 :: h2 :: h3 :: h4 :: rest'' =>
                  match hex4 h1 h2 h3 h4 with
                  | Some u => option_map (cons u) (unquote_units rest'')
                  | None => None
                  end
              | _ => None
              end
            else
              match escaped e with
              | Some x => option_map (cons x) (unquote_units rest')
              | None => None
              end
        | [] => None
        end
      else if ((c =? double_quote) || (c <? 32))%N then None
      else option_map (cons c) (unquote_units rest)
  end.

Definition ReadJSONString (literal : jsstr) : option jsstr :=
  match literal with
  | opening :: rest =>
      match rev rest with
      | closing :: body =>
          if ((opening =? double_quote) && (closing =? double_quote))%N
          then unquote_units (rev body)
          else None
      | [] => None
      end
  | [] => None
  end.


Definition to_upload (req : Request) : list File :=
  match body req with
  | FormData entries => map snd entries
  | _ => []
  end.

(** The declared formats of the text extractor, as file name endings
    (letter case apart). *)
Definition lower (c : code_unit) : code_unit :=
  (if (65 <=? c) && (c <=? 90) then c + 32 else c)%N.

Fixpoint ends_with (s suffix : jsstr) : bool :=
  str_eqb (map lower s) suffix ||
  match s with
  | [] => false
  | _ :: rest => ends_with rest suffix
  end.

Definition has_declared_extension (file_name : jsstr) : bool :=
  existsb (fun extension => ends_with file_name (lit extension))
    [".pdf"; ".txt"; ".docx"; ".pptx"]%string.

Local Open Scope string_scope.
Local Open Scope list_scope.

(** What only the stats bar and the answer card contain. *)
Definition marks (n : Node) : bool :=
  has_class "stats-bar" n || has_class "stat-value" n ||
  binds call_clearKnowledgeBase n || is_answer_card n.

(** Case analysis on an outcome the goal still branches on, innermost
    first. *)
Ltac branch_free x :=
  lazymatch x with
  | context [match _ with _ => _ end] => fail
  | _ => idtac
  end.

Ltac step_match :=
  match goal with
  | |- context [match ?x with _ => _ end] => branch_free x; destruct x eqn:?
  end.

Ltac run_op :=
  cbv [run final uploadDocuments searchKnowledgeBase clearKnowledgeBase
       fetchStats fetchStats_resumed mount handleFileChange
       try_catch_finally try_catch bind ret await fetch window_confirm
       console_error str prop alert emit defer modify the_state settle resume
       setFiles setQuery setAnswer setLoading setStats setUploadStatus
       ui log pending snd fst fold_left app].

Ltac open_cards :=
  cbv [cards_grid upload_card search_card selected_files busy_or file_input
       div span icon text].

(** The two buttons of the cards, as the JSX writes them. *)
Definition upload_button (st : State) : Node :=
  Elem "button"
    [("onClick", On call_uploadDocuments);
     ("disabled",
      Dyn (JBool (loading st || (List.length (files st) =? 0)%nat)));
     ("className", Lit "btn btn-primary")]
    [busy_or st "Processing..." "Upload" "Upload & Process"].

Definition search_button (st : State) : Node :=
  Elem "button"
    [("onClick", On call_searchKnowledgeBase);
     ("disabled",
      Dyn (JBool (loading st || negb (truthy (JStr (trim (query st)))))));
     ("className", Lit "btn btn-success")]
    [busy_or st "Searching..." "Search" "Search"].

(** ** The answer card, unfolded

    The JSX of lines 273-309, which [AnswerCard] stands for. It reads
    [answer], [sources], [confidence], [filename] and [relevance_score]
    (none a built-in property, so [get] applies), [length], and calls
    [map] and [toFixed]. *)

(** The text of the TypeError for a call of something that is not a
    function: the engine's choice. *)
Class CallErrors := { msg_not_a_function : jsstr }.

(** [Number.prototype.toFixed(1)]: the integer [n] for which [n / 10] is
    nearest the number (the larger one on a tie), written with one digit
    after the point; from 10^21 on, and for what is not finite, the number
    prints as ToString prints it. *)
Definition nearest_tenths (m : positive) (e : Z) : Z :=
  (if 0 <=? e then 10 * Z.pos m * 2 ^ e
   else (2 * (10 * Z.pos m) + 2 ^ (- e)) / 2 ^ (1 - e))%Z.

Definition at_least_1e21 (m : positive) (e : Z) : bool :=
  (if 0 <=? e then 10 ^ 21 <=? Z.pos m * 2 ^ e
   else 10 ^ 21 * 2 ^ (- e) <=? Z.pos m)%Z.

Definition toFixed1 {engine : Engine} (x : number) : jsstr :=
  match x with
  | S754_nan | S754_infinity _ => NumberToString x
  | S754_zero _ => lit "0.0"
  | S754_finite s m e =>
      if at_least_1e21 m e then NumberToString x
      else
        let n := nearest_tenths m e in
        (if s then lit "-" else []) ++
        decimal (n / 10) ++ lit "." ++ decimal (n mod 10)
  end.

(** [a * b] on two numbers. *)
Definition times (a b : number) : number := SFmul prec emax a b.

Section AnswerCard.
Context {engine : Engine} {call_errors : CallErrors}.

(** [v.length]: the length of an array or of a string, an own property of
    an object, undefined on a number or a boolean. *)
Definition get_length (v : jsval) : completion jsval :=
  match v with
  | JArr items => Normal (JNum (of_Z (Z.of_nat (List.length items))))
  | JStr s => Normal (JNum (of_Z (Z.of_nat (List.length s))))
  | _ => get v (lit "length")
  end.

(** [v.map((x, i) => f x i)] where [f] may throw: only an array has a
    [map] that can be called. *)
Fixpoint map_in_order (f : jsval -> nat -> completion Node) (items : list jsval)
    (index : nat) : completion (list Node) :=
  match items with
  | [] => Normal []
  | x :: rest =>
      cbind (f x index) (fun node =>
      cbind (map_in_order f rest (S index)) (fun nodes =>
        Normal (node :: nodes)))
  end.

Definition call_map (v : jsval) (f : jsval -> nat -> completion Node)
    : completion (list Node) :=
  match v with
  | JArr items => map_in_order f items 0
  | JUndefined | JNull => Throw (mkError (msg_read_of_nullish v (lit "map")))
  | _ => Throw (mkError msg_not_a_function)
  end.

(** [(source, index) => <div key={index} className="source-item">...]:
    the element, then the arrow function that reads what it shows. *)
Definition source_node (filename : jsval) (score : number) (index : nat) : Node :=
  Elem "div"
    [("key", Dyn (JNum (of_Z (Z.of_nat index))));
     ("className", Lit "source-item")]
    [div "source-info"
       [Elem "FileText" [] [];
        span "source-name" [Hole filename]];
     span "source-score"
       [text "Score: ";
        Hole (JStr (toFixed1 (times score (of_Z 100))));
        text "%"]].

Definition source_item (source : jsval) (index : nat) : completion Node :=
  cbind (get source (lit "filename")) (fun filename =>
  cbind (get source (lit "relevance_score")) (fun relevance_score =>
  cbind (ToNumber relevance_score) (fun score =>
    Normal (source_node filename score index)))).

(** [{answer.sources && answer.sources.length > 0 && (...)}] *)
Definition section_node (items : list Node) : Node :=
  div "sources-section"
    [Elem "h3" [("className", Lit "sources-title")]
       [Txt ([55357; 56538]%N ++ lit " Sources:")];
     div "sources-list" items].

Definition sources_section (a : jsval) : completion Node :=
  cbind (get a (lit "sources")) (fun sources =>
    if truthy sources then
      cbind (get_length sources) (fun length =>
      cbind (gt length zero) (fun positive =>
        if positive : bool then
          cbind (call_map sources source_item) (fun items =>
            Normal (section_node items))
        else Normal (Hole (JBool false))))
    else Normal (Hole sources)).

(** [{answer.confidence && (<div className="confidence-badge">...)}] *)
Definition badge_node (confidence : jsval) (label : jsstr) : Node :=
  div "confidence-badge"
    [text "Confidence:";
     Elem "span"
       [("className",
         Dyn (JStr (lit "confidence-value confidence-" ++ label)))]
       [Hole (JStr (lit " ")); Hole confidence]].

Definition confidence_badge (a : jsval) : completion Node :=
  cbind (get a (lit "confidence")) (fun confidence =>
    if truthy confidence then
      cbind (ToString confidence) (fun label =>
        Normal (badge_node confidence label))
    else Normal (Hole confidence)).

Definition card_node (answer_text : jsval) (sources badge : Node) : Node :=
  div "answer-card"
    [Elem "h2" [] [Txt ([55357; 56481]%N ++ lit " Answer")];
     div "answer-content"
       [Elem "p" [("className", Lit "answer-text")] [Hole answer_text]];
     sources;
     badge].

Definition answer_card (a : jsval) : completion Node :=
  cbind (get a (lit "answer")) (fun answer_text =>
  cbind (sources_section a) (fun sources =>
  cbind (confidence_badge a) (fun badge =>
    Normal (card_node answer_text sources badge)))).

(** [{answer && (...)}], and the return expression of the component
    (lines 138-312) as a whole: it throws when the stats bar expression
    or the answer card throws. *)
Definition answer_section_unfolded (st : State) : completion Node :=
  if truthy (answer st) then answer_card (answer st)
  else Normal (Hole (answer st)).

Definition page_with (st : State) (bar card : Node) : Node :=
  div "app-container"
    [div "main-content" [header; bar; cards_grid st; card]].

Definition render_unfolded (st : State) : completion Node :=
  cbind (stats_bar st) (fun bar =>
  cbind (answer_section_unfolded st) (fun card =>
    Normal (page_with st bar card))).

End AnswerCard.

(** A double for examples: [m * 2 ^ e], rounded as the format rounds. *)
Definition double (m e : Z) : number := binary_normalize prec emax m e false.

(** What a source item shows of its source: the file name, and the
    relevance score as a number. *)
Definition shows {engine : Engine} (source : jsval) (row : jsval * number) : Prop :=
  get source (lit "filename") = Normal (fst row) /\
  exists relevance_score,
    get source (lit "relevance_score") = Normal relevance_score /\
    ToNumber relevance_score = Normal (snd row).

Definition row_node {engine : Engine} (row : jsval * number) (index : nat) : Node :=
  source_node (fst row) (snd row) index.


(** ** Answers and states for running the page *)

Module Shown.

Definition call_errors : CallErrors :=
  {| msg_not_a_function := lit "answer.sources.map is not a function" |}.

Definition source (file_name : string) (relevance : number) : jsval :=
  JObj [(lit "filename", JStr (lit file_name));
        (lit "relevance_score", JNum relevance)].

(** Two sources, scored 0.75 and 0.5, and a label. *)
Definition answered : jsval :=
  JObj [(lit "answer", JStr (lit "The sky is blue."));
        (lit "sources",
         JArr [source "sky.txt" (double 3 (-2)); source "water.txt" (double 1 (-1))]);
        (lit "confidence", JStr (lit "high"))].

(** A body whose sources is a string. *)
Definition misshapen : jsval :=
  JObj [(lit "answer", JStr (lit "The sky is blue."));
        (lit "sources", JStr (lit "sky.txt"))].

Definition showing (a : jsval) : State :=
  {| files := []; query := lit "What color is the sky?"; answer := a;
     loading := false; stats := JObj Sample.counts; uploadStatus := [] |}.

Definition busy : State :=
  {| files := [Sample.notes_pdf]; query := lit "What color is the sky?";
     answer := JNull; loading := true; stats := JObj Sample.counts;
     uploadStatus := lit "Uploading and processing documents..." |}.

Definition ready : State :=
  {| files := [Sample.notes_pdf; Sample.setup_exe];
     query := lit "What color is the sky?";
     answer := JNull; loading := false; stats := JNull; uploadStatus := [] |}.

Definition answer_of (a : jsval) : Response := {| ok := true; json := Normal a |}.

End Shown.

(** * Properties *)

(** *** Blank questions *)

Lemma trimStart_nil (q : jsstr) : trimStart q = [] <-> blank q = true.
Proof.
  unfold blank. induction q as [|c q IH]; simpl.
  - tauto.
  - destruct (is_white_space c); simpl.
    + exact IH.
    + split; discriminate.
Qed.

Lemma trimStart_blank (q : jsstr) : blank (trimStart q) = true -> trimStart q = [].
Proof.
  unfold blank. induction q as [|c q IH]; simpl; auto.
  destruct (is_white_space c) eqn:E; auto.
  simpl. rewrite E. discriminate.
Qed.

Lemma blank_rev (q : jsstr) : blank (rev q) = blank q.
Proof.
  unfold blank. apply eq_true_iff_eq.
  rewrite !forallb_forall. split; intros H x Hx; apply H.
  - now apply -> in_rev.
  - now apply in_rev.
Qed.

Lemma trim_nil (q : jsstr) : trim q = [] <-> blank q = true.
Proof.
  unfold trim, trimEnd. split.
  - intros H. apply trimStart_nil, trimStart_blank.
    assert (H' : trimStart (rev (trimStart q)) = []).
    { destruct (trimStart (rev (trimStart q))) as [|c r]; auto.
      simpl in H. now apply app_eq_nil in H. }
    apply trimStart_nil in H'. now rewrite blank_rev in H'.
  - intros H. apply trimStart_nil in H. now rewrite H.
Qed.

Lemma not_blank (q : jsstr) :
  blank q = false <-> exists c, In c q /\ is_white_space c = false.
Proof.
  unfold blank. induction q as [|c q IH]; simpl.
  - split; [discriminate | intros [? [[] _]]].
  - destruct (is_white_space c) eqn:E; simpl.
    + rewrite IH. split; intros [d [Hd Hw]]; exists d; intuition congruence.
    + split; auto. intros _. exists c. auto.
Qed.

(** *** The four operations *)

Section Operations.
Context {engine : Engine}.
Variable env : Env.

Lemma started_search (s : State) :
  blank (query s) = false -> exists c rest, trim (query s) = c :: rest.
Proof.
  intros Hb. destruct (trim (query s)) as [|c rest] eqn:E.
  - apply trim_nil in E. congruence.
  - eauto.
Qed.

(** C8: uploadDocuments with no selected file and searchKnowledgeBase with an
    empty or white-space-only question return without sending any request
    (they only raise the alert and leave the state as it was); hence every
    request uploadDocuments sends to /upload carries at least one file, and
    every request searchKnowledgeBase sends carries a question that is not
    blank. *)
Theorem guards_keep_empty_requests_off_the_network (s : State) :
  (files s = [] ->
   run (uploadDocuments env) s =
     (Normal tt, {| ui := s; log := [Alert (lit "Please select files to upload")];
                    pending := [] |})) /\
  (blank (query s) = true ->
   run (searchKnowledgeBase env) s =
     (Normal tt, {| ui := s; log := [Alert (lit "Please enter a question")];
                    pending := [] |})) /\
  (forall req, In req (requests (log (snd (run (uploadDocuments env) s)))) ->
     url req = API_URL env ++ lit "/upload" ->
     to_upload req = files s /\ files s <> []) /\
  (forall req, In req (requests (log (snd (run (searchKnowledgeBase env) s)))) ->
     req = query_request env (query s) /\ blank (query s) = false).
Proof.
  destruct s as [fs q a l st us]. cbn [files query].
  split; [|split; [|split]].
  - intros ->. reflexivity.
  - intros Hb. apply trim_nil in Hb.
    run_op. cbn [query]. rewrite Hb. reflexivity.
  - intros req Hin Hurl. destruct fs as [|f fs].
    + destruct Hin.
    + split; [|discriminate].
      assert (Hreq : req = upload_request env (f :: fs) \/ req = stats_request env).
      { revert Hin. run_op. simpl.
        repeat (step_match; simpl; try tauto); intuition auto. }
      destruct Hreq as [-> | ->].
      * unfold to_upload, upload_request. cbn [body]. rewrite map_map. cbn [snd].
        now rewrite map_id.
      * exfalso. unfold stats_request in Hurl. cbn [url] in Hurl.
        apply app_inv_head in Hurl. discriminate.
  - intros req Hin.
    destruct (blank q) eqn:Hb.
    + exfalso. apply trim_nil in Hb. revert Hin. run_op. cbn [query].
      rewrite Hb. simpl. tauto.
    + split; [|reflexivity].
      destruct (started_search {| files := fs; query := q; answer := a; loading := l;
                                  stats := st; uploadStatus := us |} Hb) as [c [rest E]].
      cbn [query] in E.
      revert Hin. run_op. cbn [query]. rewrite E. simpl.
      repeat (step_match; simpl; try tauto); intuition auto.
Qed.

(** C9: whatever the server does (an ok response, a response that is not
    ok, a rejected fetch, a body that is not JSON), an upload, a search or a
    clear that went past its guard ends normally with [loading] false; one
    that its guard turned away leaves the state, and so [loading], as it
    was. *)
Theorem loading_is_reset_after_every_operation (s : State) :
  let upload := run (uploadDocuments env) s in
  let search := run (searchKnowledgeBase env) s in
  let clear := run (clearKnowledgeBase env) s in
  (fst upload = Normal tt /\ fst search = Normal tt /\ fst clear = Normal tt) /\
  (files s <> [] -> loading (final upload) = false) /\
  (blank (query s) = false -> loading (final search) = false) /\
  (confirms env confirm_text = true -> loading (final clear) = false) /\
  (files s = [] -> final upload = s) /\
  (blank (query s) = true -> final search = s) /\
  (confirms env confirm_text = false -> final clear = s).
Proof.
  destruct s as [fs q a l st us]. cbn zeta. cbn [files query].
  repeat split.
  - run_op. simpl. repeat (step_match; simpl; try reflexivity).
  - run_op. simpl. repeat (step_match; simpl; try reflexivity).
  - run_op. simpl. repeat (step_match; simpl; try reflexivity).
  - intros Hf. destruct fs as [|f fs]; [congruence|].
    run_op. simpl. repeat (step_match; simpl; try reflexivity).
  - intros Hb.
    destruct (started_search {| files := fs; query := q; answer := a; loading := l;
                                stats := st; uploadStatus := us |} Hb) as [c [rest E]].
    cbn [query] in E.
    run_op. cbn [query]. rewrite E. simpl.
    repeat (step_match; simpl; try reflexivity).
  - intros Hc. run_op. fold confirm_text. rewrite Hc. simpl.
    repeat (step_match; simpl; try reflexivity).
  - intros ->. reflexivity.
  - intros Hb. apply trim_nil in Hb. run_op. cbn [query]. rewrite Hb. reflexivity.
  - intros Hc. run_op. fold confirm_text. rewrite Hc. reflexivity.
Qed.

End Operations.

(** *** The rendered tree *)

Lemma Node_induction (P : Node -> Prop) :
  (forall tag attrs children, Forall P children -> P (Elem tag attrs children)) ->
  (forall s, P (Txt s)) ->
  (forall v, P (Hole v)) ->
  (forall a, P (AnswerCard a)) ->
  forall n, P n.
Proof.
  intros HE HT HH HA.
  fix IH 1. intros [tag attrs children | s | v | a];
    [ | apply HT | apply HH | apply HA ].
  apply HE. induction children as [|c cs IHcs]; constructor.
  - apply IH.
  - exact IHcs.
Qed.

Lemma select_none (p q : Node -> bool) (t : Node) :
  (forall n, p n = true -> q n = true) -> select q t = [] -> select p t = [].
Proof.
  intros Hpq. induction t as [tag attrs children IH | s | v | a] using Node_induction;
    simpl; intros Hq.
  - apply app_eq_nil in Hq. destruct Hq as [Hroot Hch].
    assert (Hkids : flat_map (select p) children = []).
    { clear Hroot. induction IH as [|c cs Hc _ IHcs]; simpl in *; auto.
      apply app_eq_nil in Hch. destruct Hch as [H1 H2].
      rewrite (Hc H1), (IHcs H2). reflexivity. }
    rewrite Hkids, app_nil_r.
    destruct (p (Elem tag attrs children)) eqn:E; auto.
    apply Hpq in E. rewrite E in Hroot. discriminate.
  - destruct (p (Txt s)) eqn:E; auto. apply Hpq in E. now rewrite E in Hq.
  - destruct (p (Hole v)) eqn:E; auto. apply Hpq in E. now rewrite E in Hq.
  - destruct (p (AnswerCard a)) eqn:E; auto. apply Hpq in E. now rewrite E in Hq.
Qed.

Lemma select_file_items (p : Node -> bool) (fs : list File) (i : nat) :
  (forall file index, p (file_item file index) = false) ->
  (forall v, p (Hole v) = false) ->
  flat_map (select p) (mapi file_item fs i) = [].
Proof.
  intros Hitem Hhole. revert i.
  induction fs as [|f fs IH]; intros i; simpl; auto.
  change (Elem "div" _ _) with (file_item f i).
  rewrite Hitem, Hhole, IH. reflexivity.
Qed.

Lemma cards_have_no_marks (st : State) : select marks (cards_grid st) = [].
Proof.
  open_cards.
  destruct (loading st), (files st) as [|f fs], (uploadStatus st) as [|c us];
    cbn -[mapi lit of_Z]; try reflexivity;
    rewrite select_file_items; reflexivity || (intros; reflexivity).
Qed.

Lemma cards_have_one_file_input (st : State) :
  select is_file_input (cards_grid st) = [file_input].
Proof.
  open_cards.
  destruct (loading st), (files st) as [|f fs], (uploadStatus st) as [|c us];
    cbn -[mapi lit of_Z]; try reflexivity;
    rewrite select_file_items; reflexivity || (intros; reflexivity).
Qed.

Lemma header_has_no_marks : select marks header = [].
Proof. reflexivity. Qed.

(** Outside the stats bar and the answer section the page has nothing that
    [marks] tells apart. *)
Lemma select_page (p : Node -> bool) (st : State) (bar : Node) :
  (forall n, p n = true -> marks n = true) ->
  select p (page st bar) = select p bar ++ select p (answer_section st).
Proof.
  intros Hp.
  assert (Hoff : forall n, marks n = false -> p n = false).
  { intros n Hn. destruct (p n) eqn:E; auto. apply Hp in E. congruence. }
  unfold page, div. cbn [select flat_map].
  rewrite !Hoff by reflexivity.
  rewrite (select_none p marks header Hp header_has_no_marks).
  rewrite (select_none p marks (cards_grid st) Hp (cards_have_no_marks st)).
  cbn [app]. now rewrite !app_nil_r.
Qed.

Lemma class_is_mark (c : string) :
  c = "stats-bar" \/ c = "stat-value" ->
  forall n, has_class c n = true -> marks n = true.
Proof.
  unfold marks. intros [-> | ->] n H; rewrite H; auto using orb_true_r.
  rewrite orb_true_r. reflexivity.
Qed.

Lemma clear_is_mark (n : Node) :
  binds call_clearKnowledgeBase n = true -> marks n = true.
Proof. unfold marks. intros ->. now rewrite !orb_true_r. Qed.

Lemma answer_card_is_mark (n : Node) : is_answer_card n = true -> marks n = true.
Proof. unfold marks. intros ->. now rewrite !orb_true_r. Qed.

Lemma answer_section_plain (p : Node -> bool) (st : State) :
  (forall a, p (AnswerCard a) = false) -> (forall v, p (Hole v) = false) ->
  select p (answer_section st) = [].
Proof.
  intros HA HH. unfold answer_section.
  destruct (truthy (answer st)); simpl; now rewrite ?HA, ?HH.
Qed.

Section Rendering.
Context {engine : Engine}.

(** The two ways [stats_bar] ends normally. *)
Lemma stats_bar_cases (st : State) (bar : Node) :
  stats_bar st = Normal bar ->
  (exists total_documents total_chunks,
      bar = stats_bar_element st total_documents total_chunks /\
      truthy (stats st) = true /\
      get (stats st) (lit "total_documents") = Normal total_documents /\
      get (stats st) (lit "total_chunks") = Normal total_chunks /\
      gt total_chunks zero = Normal true) \/
  (exists v, bar = Hole v /\
      (truthy (stats st) = false \/
       exists total_chunks,
         get (stats st) (lit "total_chunks") = Normal total_chunks /\
         gt total_chunks zero = Normal false)).
Proof.
  unfold stats_bar. destruct (truthy (stats st)) eqn:Ht.
  - destruct (get (stats st) (lit "total_chunks")) as [c|e] eqn:Hc; simpl; [|discriminate].
    destruct (gt c zero) as [[|]|e] eqn:Hg; simpl; try discriminate.
    + destruct (get (stats st) (lit "total_documents")) as [d|e] eqn:Hd; simpl;
        [|discriminate].
      intros [= <-]. left. exists d, c. auto.
    + intros [= <-]. right. eexists. split; eauto.
  - intros [= <-]. right. eexists. split; eauto.
Qed.

Lemma get_of_truthy (v : jsval) (k : jsstr) :
  truthy v = true -> exists x, get v k = Normal x.
Proof. destruct v; simpl; try discriminate; eauto. Qed.



Lemma render_inv (st : State) (tree : Node) :
  render st = Normal tree ->
  exists bar, stats_bar st = Normal bar /\ tree = page st bar.
Proof.
  unfold render. destruct (stats_bar st) as [bar|e]; simpl; [|discriminate].
  intros [= <-]. eauto.
Qed.

Lemma select_in_render (p : Node -> bool) (st : State) (bar : Node) :
  (forall n, p n = true -> marks n = true) ->
  (forall a, p (AnswerCard a) = false) -> (forall v, p (Hole v) = false) ->
  select p (page st bar) = select p bar.
Proof.
  intros Hp HA HH.
  now rewrite select_page, answer_section_plain, app_nil_r.
Qed.

End Rendering.

(** *** JSON string literals *)

Section JsonStrings.
Local Open Scope N_scope.

Lemma hex_value_digit n : n < 16 -> hex_value (hex_digit n) = Some n.
Proof.
  intros H. unfold hex_digit, hex_value.
  destruct (N.ltb_spec n 10) as [Hlow | Hhigh].
  - replace ((48 <=? 48 + n) && (48 + n <=? 57)) with true
      by (symmetry; apply andb_true_iff; split; apply N.leb_le; lia).
    f_equal. lia.
  - replace ((48 <=? 87 + n) && (87 + n <=? 57)) with false
      by (symmetry; apply andb_false_iff; right; apply N.leb_gt; lia).
    replace ((97 <=? 87 + n) && (87 + n <=? 102)) with true
      by (symmetry; apply andb_true_iff; split; apply N.leb_le; lia).
    f_equal. lia.
Qed.

Lemma hex4_escape c : c < 65536 ->
  hex4 (hex_digit (c / 4096 mod 16)) (hex_digit (c / 256 mod 16))
       (hex_digit (c / 16 mod 16)) (hex_digit (c mod 16)) = Some c.
Proof.
  intros H. unfold hex4.
  rewrite !hex_value_digit by (apply N.mod_lt; discriminate).
  f_equal.
  pose proof (N.div_mod c 16 ltac:(discriminate)) as E1.
  pose proof (N.div_mod (c / 16) 16 ltac:(discriminate)) as E2.
  pose proof (N.div_mod (c / 16 / 16) 16 ltac:(discriminate)) as E3.
  pose proof (N.Div0.div_lt_upper_bound c 65536 1 H) as Hlt.
  rewrite !N.Div0.div_div in *.
  change (16 * 16) with 256 in *. change (256 * 16) with 4096 in *.
  assert (Hs : c / 4096 < 16) by (apply N.Div0.div_lt_upper_bound; exact H).
  rewrite (N.mod_small (c / 4096) 16) in * by exact Hs.
  clear Hlt Hs H.
  generalize dependent (c mod 16). generalize dependent ((c / 16) mod 16).
  generalize dependent ((c / 256) mod 16). generalize dependent (c / 4096).
  generalize dependent (c / 256). generalize dependent (c / 16).
  intros. lia.
Qed.

Lemma unquote_plain (c : code_unit) (T : jsstr) :
  (c =? backslash) = false -> (c =? double_quote) = false -> (c <? 32) = false ->
  unquote_units (c :: T) = option_map (cons c) (unquote_units T).
Proof. intros H1 H2 H3. cbn [unquote_units]. now rewrite H1, H2, H3. Qed.

Lemma surrogate_plain (c : code_unit) :
  is_lead_surrogate c || is_trail_surrogate c = true ->
  (c =? backslash) = false /\ (c =? double_quote) = false /\ (c <? 32) = false.
Proof.
  unfold is_lead_surrogate, is_trail_surrogate, backslash, double_quote.
  intros H. repeat split.
  - apply N.eqb_neq. intros ->. discriminate.
  - apply N.eqb_neq. intros ->. discriminate.
  - apply N.ltb_ge.
    rewrite orb_true_iff, !andb_true_iff, !N.leb_le in H. lia.
Qed.

Lemma unquote_unit (c : code_unit) (T t : jsstr) :
  unquote_units T = Some t ->
  unquote_units (quote_unit c ++ T) = Some (c :: t).
Proof.
  intros HT. unfold quote_unit.
  destruct (N.eqb_spec c 8) as [-> | ?]; [cbv [lit]; cbn; now rewrite HT|].
  destruct (N.eqb_spec c 9) as [-> | ?]; [cbv [lit]; cbn; now rewrite HT|].
  destruct (N.eqb_spec c 10) as [-> | ?]; [cbv [lit]; cbn; now rewrite HT|].
  destruct (N.eqb_spec c 12) as [-> | ?]; [cbv [lit]; cbn; now rewrite HT|].
  destruct (N.eqb_spec c 13) as [-> | ?]; [cbv [lit]; cbn; now rewrite HT|].
  destruct (N.eqb_spec c double_quote) as [-> | ?]; [cbn; now rewrite HT|].
  destruct (N.eqb_spec c backslash) as [-> | ?]; [cbn; now rewrite HT|].
  destruct ((c <? 32) || is_lead_surrogate c || is_trail_surrogate c) eqn:E.
  - assert (Hc : c < 65536).
    { unfold is_lead_surrogate, is_trail_surrogate in E.
      rewrite !orb_true_iff, !andb_true_iff, !N.leb_le, N.ltb_lt in E. lia. }
    unfold UnicodeEscape.
    change (lit "\u") with [backslash; 117].
    cbn [app unquote_units].
    change (backslash =? backslash) with true. change (117 =? 117) with true.
    cbv iota. rewrite (hex4_escape Hc), HT. reflexivity.
  - apply orb_false_iff in E. destruct E as [E _].
    apply orb_false_iff in E. destruct E as [E _].
    cbn [app]. rewrite unquote_plain, HT; auto; now apply N.eqb_neq.
Qed.

Lemma quote_units_pair (c d : code_unit) (rest : jsstr) :
  quote_units (c :: d :: rest) =
  if is_lead_surrogate c && is_trail_surrogate d
  then c :: d :: quote_units rest
  else quote_unit c ++ quote_units (d :: rest).
Proof. reflexivity. Qed.

Lemma unquote_quote_units_upto (n : nat) : forall s,
  (List.length s <= n)%nat -> unquote_units (quote_units s) = Some s.
Proof.
  induction n as [|n IH]; intros s Hn.
  - destruct s; [reflexivity | simpl in Hn; lia].
  - destruct s as [|c [|d rest]].
    + reflexivity.
    + cbn [quote_units]. rewrite <- (app_nil_r (quote_unit c)).
      now apply unquote_unit.
    + rewrite quote_units_pair.
      destruct (is_lead_surrogate c && is_trail_surrogate d) eqn:E.
      * apply andb_true_iff in E. destruct E as [Ec Ed].
        destruct (@surrogate_plain c) as [c1 [c2 c3]]; [now rewrite Ec|].
        destruct (@surrogate_plain d) as [d1 [d2 d3]]; [now rewrite Ed, orb_true_r|].
        rewrite !unquote_plain by assumption.
        rewrite IH by (simpl in Hn; lia). reflexivity.
      * apply unquote_unit. apply IH. simpl in Hn |- *. lia.
Qed.

Lemma unquote_quote_units (s : jsstr) : unquote_units (quote_units s) = Some s.
Proof. apply (@unquote_quote_units_upto (List.length s) s). apply le_n. Qed.

(** What QuoteJSONString writes, a JSON reader reads back unchanged. *)
Lemma ReadJSONString_QuoteJSONString (s : jsstr) :
  ReadJSONString (QuoteJSONString s) = Some s.
Proof.
  unfold ReadJSONString, QuoteJSONString.
  rewrite rev_unit, N.eqb_refl, rev_involutive. cbn [andb].
  apply unquote_quote_units.
Qed.

End JsonStrings.

#[local] Arguments lit : simpl never.

Section Boundaries.
Context {engine : Engine}.
Variable env : Env.

Lemma query_body_text (q : jsstr) :
  JSON_stringify (query_body q) = Some (query_text (QuoteJSONString q)).
Proof.
  unfold JSON_stringify, query_body, query_text.
  cbn [SerializeJSONProperty join_with is_finite of_Z].
  change (NumberToString (of_Z 5)) with (lit "5").
  cbv [quoted]. rewrite <- !app_assoc. reflexivity.
Qed.

(** C2: a search with a question that is not blank sends exactly one
    request, a POST to /query declared as JSON, whose body is the JSON text
    of the object {question, top_k, include_sources} with the entered text
    (untrimmed) as question, 5 as top_k and true as include_sources; the
    string literal written for the question reads back as the entered
    text. *)
Theorem search_sends_the_query_object (s : State) :
  blank (query s) = false ->
  exists req,
    requests (log (snd (run (searchKnowledgeBase env) s))) = [req] /\
    url req = API_URL env ++ lit "/query" /\
    method req = POST /\
    headers req = [(lit "Content-Type", lit "application/json")] /\
    body req = Text (query_text (QuoteJSONString (query s))) /\
    ReadJSONString (QuoteJSONString (query s)) = Some (query s) /\
    JSON_stringify
      (JObj [(lit "question", JStr (query s));
             (lit "top_k", JNum (of_Z 5));
             (lit "include_sources", JBool true)]) =
      Some (query_text (QuoteJSONString (query s))).
Proof.
  intros Hb. exists (query_request env (query s)).
  split; [|repeat split].
  - destruct (started_search s Hb) as [c [rest E]].
    destruct s as [fs q a l st us]. cbn [query] in *.
    run_op. cbn [query]. rewrite E. simpl.
    repeat (step_match; simpl; try reflexivity).
  - unfold query_request. cbn [body]. now rewrite query_body_text.
  - apply ReadJSONString_QuoteJSONString.
  - apply query_body_text.
Qed.

(** C5: when a search that went past its guard meets a rejected fetch, a
    body that does not parse, or a response that is not ok, the operation
    still ends normally, [loading] is false, and [answer] is an object whose
    answer text is "Error: " followed by the error's message (or by the
    server's detail) and whose sources list is empty. *)
Theorem failed_search_gives_degraded_answer (s : State) :
  blank (query s) = false ->
  let settled := network env (query_request env (query s)) in
  ((exists e, settled = Throw e) \/
   (exists response, settled = Normal response /\
      (ok response = false \/ exists e, json response = Throw e))) ->
  let outcome := run (searchKnowledgeBase env) s in
  fst outcome = Normal tt /\
  loading (final outcome) = false /\
  exists text,
    answer (final outcome) =
      JObj [(lit "answer", JStr (lit "Error: " ++ text)); (lit "sources", JArr [])] /\
    (forall e, settled = Throw e -> text = message e) /\
    (forall response e,
       settled = Normal response -> json response = Throw e -> text = message e) /\
    (forall response result detail shown,
       settled = Normal response -> json response = Normal result ->
       get result (lit "detail") = Normal detail -> ToString detail = Normal shown ->
       text = shown).
Proof.
  intros Hb settled Hfail outcome.
  destruct (started_search s Hb) as [c [rest E]].
  destruct s as [fs q a l st us]. cbn [query] in *.
  subst outcome. revert Hfail. subst settled. run_op. cbn [query]. rewrite E.
  cbn [truthy negb].
  destruct (network env (query_request env q)) as [response|e] eqn:Hnet.
  - intros [[e He] | [r [Hr Hbad]]]; [discriminate|]. injection Hr as <-.
    destruct (json response) as [result|e] eqn:Hjson.
    + destruct Hbad as [Hok | [e He]]; [|discriminate].
      rewrite Hok. cbn.
      destruct (get result (lit "detail")) as [detail|e] eqn:Hget; cbn.
      * destruct (ToString detail) as [shown|e] eqn:Hshow; cbn.
        -- split; [reflexivity|split; [reflexivity|]].
           exists shown. repeat split; intros; congruence.
        -- split; [reflexivity|split; [reflexivity|]].
           exists (message e). repeat split; intros; congruence.
      * split; [reflexivity|split; [reflexivity|]].
        exists (message e). repeat split; intros; congruence.
    + cbn. split; [reflexivity|split; [reflexivity|]].
      exists (message e). repeat split; intros; congruence.
  - intros _. cbn. split; [reflexivity|split; [reflexivity|]].
    exists (message e). repeat split; intros; congruence.
Qed.

(** C1, as the code has it: when the response to an upload is ok and
    its body parses, the success message reports, as documents and chunks,
    the fields statistics.documents and statistics.chunks of the body. *)
Theorem upload_success_reports_statistics
    (s : State) (response : Response)
    (result statistics documents chunks : jsval) (shown_documents shown_chunks : jsstr) :
  files s <> [] ->
  network env (upload_request env (files s)) = Normal response ->
  ok response = true ->
  json response = Normal result ->
  get result (lit "statistics") = Normal statistics ->
  get statistics (lit "documents") = Normal documents ->
  ToString documents = Normal shown_documents ->
  get statistics (lit "chunks") = Normal chunks ->
  ToString chunks = Normal shown_chunks ->
  uploadStatus (final (run (uploadDocuments env) s)) =
    check_mark :: lit " Successfully processed " ++ shown_documents ++
    lit " documents (" ++ shown_chunks ++ lit " chunks)".
Proof.
  intros Hf Hnet Hok Hjson Hs Hd Hsd Hc Hsc.
  destruct s as [fs q a l st us]. cbn [files] in *.
  destruct fs as [|f fs]; [congruence|].
  run_op. cbn [files Nat.eqb List.length]. rewrite Hnet. cbn.
  rewrite Hjson, Hok. cbn. rewrite Hs. cbn. rewrite Hd. cbn. rewrite Hsd. cbn.
  rewrite Hc. cbn. rewrite Hsc. cbn.
  repeat (step_match; cbn; try reflexivity).
Qed.

(** C7, as the code has it: a confirmed clear sends exactly one request,
    a DELETE to /clear; when the response is ok and its body parses, the
    status reads "Knowledge base cleared" behind the check mark, [stats] and
    [answer] are null, and the page then shows neither the stats bar nor the
    answer card. *)
Theorem confirmed_clear_sends_one_delete (s : State) :
  confirms env confirm_text = true ->
  let outcome := run (clearKnowledgeBase env) s in
  (exists req,
     requests (log (snd outcome)) = [req] /\
     method req = DELETE /\
     url req = API_URL env ++ lit "/clear") /\
  (forall response result,
     network env (clear_request env) = Normal response ->
     ok response = true ->
     json response = Normal result ->
     uploadStatus (final outcome) = check_mark :: lit " Knowledge base cleared" /\
     stats (final outcome) = JNull /\
     answer (final outcome) = JNull /\
     exists tree,
       render (final outcome) = Normal tree /\
       select (has_class "stats-bar") tree = [] /\
       select is_answer_card tree = []).
Proof.
  intros Hc outcome. subst outcome.
  destruct s as [fs q a l st us]. split.
  - exists (clear_request env). split; [|split; reflexivity].
    run_op. fold confirm_text. rewrite Hc. cbn.
    repeat (step_match; cbn; try reflexivity).
  - intros response result Hnet Hok Hjson.
    assert (E : final (run (clearKnowledgeBase env)
                         {| files := fs; query := q; answer := a; loading := l;
                            stats := st; uploadStatus := us |}) =
                {| files := fs; query := q; answer := JNull; loading := false;
                   stats := JNull;
                   uploadStatus := check_mark :: lit " Knowledge base cleared" |}).
    { run_op. fold confirm_text. rewrite Hc. cbn. rewrite Hnet. cbn.
      rewrite Hjson, Hok. reflexivity. }
    rewrite E. cbn [uploadStatus stats answer].
    repeat split.
    eexists. split; [reflexivity|]. split.
    + rewrite select_page by (apply class_is_mark; auto). reflexivity.
    + rewrite select_page by apply answer_card_is_mark. reflexivity.
Qed.

Lemma file_input_in_page (st : State) (bar : Node) :
  select is_file_input bar = [] ->
  select is_file_input (page st bar) = [file_input].
Proof.
  intros Hbar. unfold page, div. cbn [select flat_map].
  change (is_file_input (Elem "div" [("className", Lit "app-container")] _)) with false.
  change (is_file_input (Elem "div" [("className", Lit "main-content")] _)) with false.
  change (select is_file_input header) with (@nil Node).
  rewrite Hbar, cards_have_one_file_input, answer_section_plain by reflexivity.
  reflexivity.
Qed.

Lemma to_upload_request (fs : list File) : to_upload (upload_request env fs) = fs.
Proof.
  unfold to_upload, upload_request. cbn [body].
  rewrite map_map. cbn [snd]. apply map_id.
Qed.

(** C6, as the code has it: the page has one file input; it calls
    handleFileChange and its accept attribute lists exactly .pdf, .txt,
    .docx and .pptx. handleFileChange keeps every file the change event
    delivers, and an upload offers exactly those files to POST /upload,
    whatever their names. *)
Theorem file_selector_lists_declared_formats (s : State) (target_files : list File) :
  (forall tree, render s = Normal tree ->
     exists input accept,
       select is_file_input tree = [input] /\
       binds call_handleFileChange input = true /\
       attr "accept" (attrs_of input) = Some (Lit accept) /\
       split_commas accept = [".pdf"; ".txt"; ".docx"; ".pptx"]) /\
  (let chosen := final (run (handleFileChange target_files) s) in
   files chosen = target_files /\
   (target_files <> [] ->
    exists req rest,
      requests (log (snd (run (uploadDocuments env) chosen))) = req :: rest /\
      url req = API_URL env ++ lit "/upload" /\
      method req = POST /\
      to_upload req = target_files)).
Proof.
  split.
  - intros tree Hr. destruct (render_inv _ Hr) as [bar [Hb ->]].
    exists file_input, ".pdf,.txt,.docx,.pptx".
    split; [|repeat split].
    apply file_input_in_page.
    destruct (stats_bar_cases _ Hb) as
      [[d [c [-> _]]] | [v [-> _]]]; reflexivity.
  - cbn zeta. split; [reflexivity|].
    intros Hne. exists (upload_request env target_files).
    destruct target_files as [|f fs]; [congruence|].
    destruct s as [fs0 q a l st us].
    assert (exists rest,
      requests (log (snd (run (uploadDocuments env)
        (final (run (handleFileChange (f :: fs))
           {| files := fs0; query := q; answer := a; loading := l;
              stats := st; uploadStatus := us |}))))) =
      upload_request env (f :: fs) :: rest) as [rest Hrest].
    { run_op. cbn.
      repeat (step_match; cbn; try (eexists; reflexivity)). }
    exists rest. split; [exact Hrest|]. split; [reflexivity|]. split; [reflexivity|].
    apply to_upload_request.
Qed.

End Boundaries.

(** *** The confidence label *)

Section Confidence.
Import Scorer.
Local Open Scope Q_scope.

Lemma Qlt_bool_iff (x y : Q) : Qlt_bool x y = true <-> x < y.
Proof.
  unfold Qlt_bool. rewrite negb_true_iff. split.
  - intros H. apply Qnot_le_lt. intros Hle.
    apply Qle_bool_iff in Hle. congruence.
  - intros H. destruct (Qle_bool y x) eqn:E; auto.
    apply Qle_bool_iff in E. now apply Qle_not_lt in E.
Qed.

(** C3: the label is high exactly when the top similarity score is above
    0.70, medium exactly when it lies in [0.50, 0.70], and low exactly when
    it is below 0.50 or there is no result at all; a top score equal to
    0.70 or to 0.50 gives medium, and the empty result gives low. *)
Theorem confidence_follows_top_score :
  (forall top rest,
     (score (top :: rest) = high <-> 70 # 100 < similarity_score top) /\
     (score (top :: rest) = medium <->
        50 # 100 <= similarity_score top /\ similarity_score top <= 70 # 100) /\
     (score (top :: rest) = low <-> similarity_score top < 50 # 100)) /\
  (forall top rest, similarity_score top == 70 # 100 -> score (top :: rest) = medium) /\
  (forall top rest, similarity_score top == 50 # 100 -> score (top :: rest) = medium) /\
  score [] = low.
Proof.
  assert (Hcases : forall top rest,
     (score (top :: rest) = high <-> 70 # 100 < similarity_score top) /\
     (score (top :: rest) = medium <->
        50 # 100 <= similarity_score top /\ similarity_score top <= 70 # 100) /\
     (score (top :: rest) = low <-> similarity_score top < 50 # 100)).
  { intros top rest. unfold score. set (x := similarity_score top).
    destruct (Qlt_bool (70 # 100) x) eqn:Hhi.
    - apply Qlt_bool_iff in Hhi.
      split; [tauto|]. split; split; try discriminate.
      + intros [_ Hle]. now apply Qle_not_lt in Hle.
      + intros Hlo. exfalso.
        apply (Qlt_irrefl x). apply Qlt_trans with (50 # 100); auto.
        apply Qlt_trans with (70 # 100); auto. reflexivity.
    - assert (Hle : x <= 70 # 100).
      { apply Qnot_lt_le. intros H. apply Qlt_bool_iff in H. congruence. }
      destruct (Qle_bool (50 # 100) x) eqn:Hmid.
      + apply Qle_bool_iff in Hmid. rewrite (proj2 (Qle_bool_iff _ _) Hle).
        cbn [andb]. split; [split; [discriminate|]|].
        * intros H. now apply Qle_not_lt in Hle.
        * split; [tauto|]. split; [discriminate|].
          intros H. now apply Qle_not_lt in Hmid.
      + cbn [andb].
        assert (Hlo : x < 50 # 100).
        { apply Qnot_le_lt. intros H. apply Qle_bool_iff in H. congruence. }
        split; [split; [discriminate|]|].
        * intros H. now apply Qle_not_lt in Hle.
        * split; [split; [discriminate|]|tauto].
          intros [H _]. now apply Qle_not_lt in H. }
  split; [exact Hcases|]. split; [|split; [|reflexivity]].
  - intros top rest E. apply (Hcases top rest). rewrite E. split; [discriminate|].
    apply Qle_refl.
  - intros top rest E. apply (Hcases top rest). rewrite E. split; [|discriminate].
    apply Qle_refl.
Qed.

End Confidence.

(** ** Further properties of the operations *)

Section Outcomes.
Context {engine : Engine}.
Variable env : Env.

(** X1: an upload past its guard ends in one of two ways, whatever the server
    does: the success message is shown, the selection is emptied, the file
    input is reset and the stats are asked for again; or the error message
    is shown, the selection and the stats stay as they were and nothing
    but the upload itself was sent. The question and the answer are never
    touched. *)
Theorem upload_empties_selection_only_on_success (s : State) :
  files s <> [] ->
  let outcome := run (uploadDocuments env) s in
  query (final outcome) = query s /\
  answer (final outcome) = answer s /\
  ((exists documents chunks,
      uploadStatus (final outcome) =
        check_mark :: lit " Successfully processed " ++ documents ++
        lit " documents (" ++ chunks ++ lit " chunks)" /\
      files (final outcome) = [] /\
      requests (log (snd outcome)) =
        [upload_request env (files s); stats_request env] /\
      In (SetValue (lit "file-upload") []) (log (snd outcome))) \/
   (exists text,
      uploadStatus (final outcome) = ballot_x :: lit " Error: " ++ text /\
      files (final outcome) = files s /\
      stats (final outcome) = stats s /\
      requests (log (snd outcome)) = [upload_request env (files s)])).
Proof.
  intros Hf outcome. subst outcome.
  destruct s as [fs q a l st us]. cbn [files query answer stats] in *.
  destruct fs as [|f fs]; [congruence|].
  run_op. cbn.
  repeat (step_match; cbn);
    (split; [reflexivity|]); (split; [reflexivity|]);
    solve [ left; do 2 eexists; repeat split; cbn; auto
          | right; eexists; repeat split ].
Qed.

(** X2: after a successful upload the stats are those the stats boundary
    returns to the request sent after the upload: the body of that
    response, whatever its status, becomes [stats]; and the events come in
    this order: the upload, the reset of the file input, the stats
    request. *)
Theorem successful_upload_refreshes_stats
    (s : State) (response : Response)
    (result statistics documents chunks : jsval) (shown_documents shown_chunks : jsstr)
    (stats_response : Response) (fresh : jsval) :
  files s <> [] ->
  network env (upload_request env (files s)) = Normal response ->
  ok response = true ->
  json response = Normal result ->
  get result (lit "statistics") = Normal statistics ->
  get statistics (lit "documents") = Normal documents ->
  ToString documents = Normal shown_documents ->
  get statistics (lit "chunks") = Normal chunks ->
  ToString chunks = Normal shown_chunks ->
  network env (stats_request env) = Normal stats_response ->
  json stats_response = Normal fresh ->
  let outcome := run (uploadDocuments env) s in
  stats (final outcome) = fresh /\
  files (final outcome) = [] /\
  loading (final outcome) = false /\
  log (snd outcome) =
    [Fetch (upload_request env (files s));
     SetValue (lit "file-upload") [];
     Fetch (stats_request env)].
Proof.
  intros Hf Hnet Hok Hjson Hs Hd Hsd Hc Hsc Hnet2 Hjson2.
  destruct s as [fs q a l st us]. cbn [files] in *.
  destruct fs as [|f fs]; [congruence|].
  run_op. cbn [files Nat.eqb List.length]. rewrite Hnet. cbn.
  rewrite Hjson, Hok. cbn. rewrite Hs. cbn. rewrite Hd. cbn. rewrite Hsd. cbn.
  rewrite Hc. cbn. rewrite Hsc. cbn. rewrite Hnet2. cbn. rewrite Hjson2. cbn.
  repeat split.
Qed.

(** X3: fetchStats never looks at [response.ok]: any body that parses becomes
    [stats] and nothing else changes. When the fetch is rejected or the
    body does not parse, the state stays exactly as it was and the error
    goes to console.error. Neither the call nor what runs after the
    response has settled ends in an exception, whatever the response. *)
Theorem stats_fetch_keeps_state_on_failure (s : State) :
  let outcome := run (fetchStats env) s in
  fst outcome = Normal tt /\
  (forall settled w, fst (fetchStats_resumed settled w) = Normal tt) /\
  (forall response result,
     network env (stats_request env) = Normal response ->
     json response = Normal result ->
     final outcome =
       {| files := files s; query := query s; answer := answer s;
          loading := loading s; stats := result;
          uploadStatus := uploadStatus s |} /\
     log (snd outcome) = [Fetch (stats_request env)]) /\
  (forall e,
     network env (stats_request env) = Throw e \/
     (exists response,
        network env (stats_request env) = Normal response /\
        json response = Throw e) ->
     final outcome = s /\
     log (snd outcome) =
       [Fetch (stats_request env); ConsoleError (lit "Error fetching stats:") e]).
Proof.
  cbn zeta. destruct s as [fs q a l st us]. split; [|split; [|split]].
  - run_op. reflexivity.
  - intros [response|e] w; run_op; [destruct (json response)|]; reflexivity.
  - intros response result Hnet Hjson.
    run_op. rewrite Hnet. cbn. rewrite Hjson. cbn. split; reflexivity.
  - intros e [Hnet | [response [Hnet Hjson]]].
    + run_op. rewrite Hnet. cbn. split; reflexivity.
    + run_op. rewrite Hnet. cbn. rewrite Hjson. cbn. split; reflexivity.
Qed.

(** X4: a search past its guard whose response is ok and parses stores the
    parsed body as the answer, unchanged, and alters nothing else but
    [loading]. *)
Theorem successful_search_stores_the_body
    (s : State) (response : Response) (result : jsval) :
  blank (query s) = false ->
  network env (query_request env (query s)) = Normal response ->
  ok response = true ->
  json response = Normal result ->
  final (run (searchKnowledgeBase env) s) =
    {| files := files s; query := query s; answer := result; loading := false;
       stats := stats s; uploadStatus := uploadStatus s |}.
Proof.
  intros Hb Hnet Hok Hjson.
  destruct (started_search s Hb) as [c [rest E]].
  destruct s as [fs q a l st us]. cbn [query files stats uploadStatus] in *.
  run_op. cbn [query]. rewrite E. cbn. rewrite Hnet. cbn.
  rewrite Hjson, Hok. reflexivity.
Qed.

(** X5: what the operations never touch, whatever the server answers: none
    of them alters the question; a search leaves the selection, the stats
    and the upload status alone; a clear leaves the selection alone; an
    upload leaves the answer alone; fetchStats alters nothing but the
    stats. *)
Theorem operations_leave_the_rest_alone (s : State) :
  let upload := final (run (uploadDocuments env) s) in
  let search := final (run (searchKnowledgeBase env) s) in
  let clear := final (run (clearKnowledgeBase env) s) in
  let fetched := final (run (fetchStats env) s) in
  (query upload = query s /\ query search = query s /\
   query clear = query s /\ query fetched = query s) /\
  (files search = files s /\ stats search = stats s /\
   uploadStatus search = uploadStatus s) /\
  (files clear = files s) /\
  (answer upload = answer s) /\
  (files fetched = files s /\ answer fetched = answer s /\
   loading fetched = loading s /\ uploadStatus fetched = uploadStatus s).
Proof.
  cbn zeta. destruct s as [fs q a l st us]. cbn [files query answer stats uploadStatus loading].
  repeat split;
    run_op; cbn; try reflexivity; repeat (step_match; cbn; try reflexivity).
Qed.

(** X6: a confirmed clear ends in one of two ways: the confirmation is shown
    and stats and answer are null, or the error message is shown and stats
    and answer are what they were. A declined clear shows the dialog and
    sends nothing. *)
Theorem clear_resets_only_on_success (s : State) :
  let outcome := run (clearKnowledgeBase env) s in
  (confirms env confirm_text = true ->
   requests (log (snd outcome)) = [clear_request env] /\
   ((uploadStatus (final outcome) = check_mark :: lit " Knowledge base cleared" /\
     stats (final outcome) = JNull /\ answer (final outcome) = JNull) \/
    (exists text,
       uploadStatus (final outcome) = ballot_x :: lit " Error: " ++ text /\
       stats (final outcome) = stats s /\ answer (final outcome) = answer s))) /\
  (confirms env confirm_text = false ->
   log (snd outcome) = [Confirm confirm_text]).
Proof.
  cbn zeta. destruct s as [fs q a l st us]. cbn [stats answer]. split.
  - intros Hc. run_op. fold confirm_text. rewrite Hc. cbn.
    repeat (step_match; cbn);
      (split; [reflexivity|]);
      solve [ left; repeat split | right; eexists; repeat split ].
  - intros Hc. run_op. fold confirm_text. rewrite Hc. reflexivity.
Qed.

(** X7: when the response to an upload or to a confirmed clear is not ok and
    its body parses, the status shows the body's [detail] behind "Error: ";
    a body that is an object without [detail] shows "undefined" there. *)
Theorem error_status_shows_the_detail
    (s : State) (response : Response) (result detail : jsval) (shown : jsstr) :
  ok response = false ->
  json response = Normal result ->
  get result (lit "detail") = Normal detail ->
  ToString detail = Normal shown ->
  (files s <> [] ->
   network env (upload_request env (files s)) = Normal response ->
   uploadStatus (final (run (uploadDocuments env) s)) =
     ballot_x :: lit " Error: " ++ shown) /\
  (confirms env confirm_text = true ->
   network env (clear_request env) = Normal response ->
   uploadStatus (final (run (clearKnowledgeBase env) s)) =
     ballot_x :: lit " Error: " ++ shown) /\
  (forall props, result = JObj props -> lookup (lit "detail") props = None ->
     shown = lit "undefined").
Proof.
  intros Hok Hjson Hget Hshow.
  destruct s as [fs q a l st us]. cbn [files]. split; [|split].
  - intros Hf Hnet. destruct fs as [|f fs]; [congruence|].
    run_op. cbn [files Nat.eqb List.length]. rewrite Hnet. cbn.
    rewrite Hjson, Hok. cbn. rewrite Hget. cbn. rewrite Hshow. reflexivity.
  - intros Hc Hnet. run_op. fold confirm_text. rewrite Hc. cbn.
    rewrite Hnet. cbn. rewrite Hjson, Hok. cbn. rewrite Hget. cbn.
    rewrite Hshow. reflexivity.
  - intros props -> Hnone. cbn [get] in Hget. rewrite Hnone in Hget.
    injection Hget as <-. cbn in Hshow. now injection Hshow as <-.
Qed.

(** X8: the only requests the component ever sends are POST /upload,
    POST /query, GET /stats and DELETE /clear under API_URL. *)
Theorem only_four_endpoints (s : State) (req : Request) :
  In req (requests (log (snd (run (uploadDocuments env) s))) ++
          requests (log (snd (run (searchKnowledgeBase env) s))) ++
          requests (log (snd (run (clearKnowledgeBase env) s))) ++
          requests (log (snd (run (fetchStats env) s))) ++
          requests (log (snd (run (mount env) s)))) ->
  In (url req, method req)
     [(API_URL env ++ lit "/upload", POST); (API_URL env ++ lit "/query", POST);
      (API_URL env ++ lit "/stats", GET); (API_URL env ++ lit "/clear", DELETE)].
Proof.
  destruct s as [fs q a l st us].
  rewrite !in_app_iff.
  intros [H | [H | [H | [H | H]]]]; revert H; run_op; cbn;
    repeat (step_match; cbn);
    intros H;
    repeat match goal with
           | H : _ \/ _ |- _ => destruct H as [H | H]
           | H : False |- _ => destruct H
           end;
    subst req; cbn; tauto.
Qed.

End Outcomes.

(** ** Further properties of the page *)

Lemma cards_bind_upload (st : State) :
  select (binds call_uploadDocuments) (cards_grid st) = [upload_button st].
Proof.
  unfold upload_button. open_cards.
  destruct (loading st), (files st) as [|f fs], (uploadStatus st) as [|c us];
    cbn -[mapi lit of_Z]; try reflexivity;
    rewrite select_file_items; reflexivity || (intros; reflexivity).
Qed.

Lemma cards_bind_search (st : State) :
  select (binds call_searchKnowledgeBase) (cards_grid st) = [search_button st].
Proof.
  unfold search_button. open_cards.
  destruct (loading st), (files st) as [|f fs], (uploadStatus st) as [|c us];
    cbn -[mapi lit of_Z trim]; try reflexivity;
    rewrite select_file_items; reflexivity || (intros; reflexivity).
Qed.

Lemma cards_file_items (st : State) :
  select (has_class "file-item") (cards_grid st) = mapi file_item (files st) 0.
Proof.
  open_cards.
  assert (Hitems : forall fs i,
    flat_map (select (has_class "file-item")) (mapi file_item fs i) =
    mapi file_item fs i).
  { induction fs as [|f fs IH]; intros i; [reflexivity|].
    cbn [mapi flat_map]. rewrite IH. reflexivity. }
  destruct (loading st), (files st) as [|f fs], (uploadStatus st) as [|c us];
    cbn -[mapi lit of_Z trim]; try reflexivity;
    rewrite Hitems, !app_nil_r; reflexivity.
Qed.

Lemma select_div (p : Node -> bool) (class : string) (children : list Node) :
  select p (div class children) =
  (if p (div class children) then [div class children] else []) ++
  flat_map (select p) children.
Proof. reflexivity. Qed.

(** Selecting in the page, for what the header and the answer section do
    not hold. *)
Lemma select_outside_header (p : Node -> bool) (st : State) (bar : Node) :
  (forall children, p (div "app-container" children) = false) ->
  (forall children, p (div "main-content" children) = false) ->
  select p header = [] ->
  (forall a, p (AnswerCard a) = false) -> (forall v, p (Hole v) = false) ->
  select p (page st bar) = select p bar ++ select p (cards_grid st).
Proof.
  intros Hroot Hmain Hheader HA HH. unfold page.
  rewrite select_div, Hroot. cbn [flat_map app].
  rewrite select_div, Hmain. cbn [flat_map app].
  rewrite Hheader, answer_section_plain by assumption.
  cbn [app]. now rewrite !app_nil_r.
Qed.

Section Controls.
Context {engine : Engine}.
Variable env : Env.

Lemma bar_binds_only_clear (st : State) (bar : Node) (h : Handler) :
  stats_bar st = Normal bar -> h <> call_clearKnowledgeBase ->
  select (binds h) bar = [].
Proof.
  intros Hb Hh.
  destruct (stats_bar_cases _ Hb) as [[d [c [-> _]]] | [v [-> _]]];
    destruct h; try congruence; reflexivity.
Qed.

Lemma bar_has_no_file_items (st : State) (bar : Node) :
  stats_bar st = Normal bar -> select (has_class "file-item") bar = [].
Proof.
  intros Hb.
  destruct (stats_bar_cases _ Hb) as [[d [c [-> _]]] | [v [-> _]]]; reflexivity.
Qed.

(** X9: the page has one element that calls uploadDocuments and one that calls
    searchKnowledgeBase, each with a computed [disabled] flag. When the
    upload button is enabled a click does send the upload (no alert), and
    when the search button is enabled a click does send the query: the
    flags repeat the guards of the two operations. *)
Theorem enabled_buttons_pass_the_guards (st : State) (tree : Node) :
  render st = Normal tree ->
  exists upload search upload_off search_off,
    select (binds call_uploadDocuments) tree = [upload] /\
    select (binds call_searchKnowledgeBase) tree = [search] /\
    attr "disabled" (attrs_of upload) = Some (Dyn (JBool upload_off)) /\
    attr "disabled" (attrs_of search) = Some (Dyn (JBool search_off)) /\
    (upload_off = false <-> loading st = false /\ files st <> []) /\
    (search_off = false <-> loading st = false /\ blank (query st) = false) /\
    (upload_off = false ->
     exists rest,
       log (snd (run (uploadDocuments env) st)) =
         Fetch (upload_request env (files st)) :: rest) /\
    (search_off = false ->
     exists rest,
       log (snd (run (searchKnowledgeBase env) st)) =
         Fetch (query_request env (query st)) :: rest).
Proof.
  intros Hr. destruct (render_inv _ Hr) as [bar [Hb ->]].
  exists (upload_button st), (search_button st),
    (loading st || (List.length (files st) =? 0)%nat),
    (loading st || negb (truthy (JStr (trim (query st))))).
  split; [|split; [|split; [reflexivity|split; [reflexivity|]]]].
  - rewrite select_outside_header by reflexivity.
    now rewrite (bar_binds_only_clear _ Hb), cards_bind_upload by discriminate.
  - rewrite select_outside_header by reflexivity.
    now rewrite (bar_binds_only_clear _ Hb), cards_bind_search by discriminate.
  - assert (Hblank : truthy (JStr (trim (query st))) = negb (blank (query st))).
    { destruct (blank (query st)) eqn:E.
      - apply trim_nil in E. now rewrite E.
      - destruct (started_search st E) as [c [rest ->]]. reflexivity. }
    assert (Hup : loading st || (List.length (files st) =? 0)%nat = false <->
                  loading st = false /\ files st <> []).
    { rewrite orb_false_iff. destruct (files st); cbn; intuition congruence. }
    assert (Hse : loading st || negb (truthy (JStr (trim (query st)))) = false <->
                  loading st = false /\ blank (query st) = false).
    { rewrite orb_false_iff, Hblank, negb_involutive. tauto. }
    split; [exact Hup|]. split; [exact Hse|]. split.
    + intros Hoff. apply Hup in Hoff. destruct Hoff as [_ Hf].
      destruct st as [fs q a l s us]. cbn [files] in *.
      destruct fs as [|f fs]; [congruence|].
      run_op. cbn. repeat (step_match; cbn; try (eexists; reflexivity)).
    + intros Hoff. apply Hse in Hoff. destruct Hoff as [_ Hq].
      destruct (started_search st Hq) as [c [rest E]].
      destruct st as [fs q a l s us]. cbn [query] in *.
      run_op. cbn [query]. rewrite E. cbn.
      repeat (step_match; cbn; try (eexists; reflexivity)).
Qed.

(** X10: while an operation is in flight ([loading] is true) every element of
    the page that calls uploadDocuments, searchKnowledgeBase or
    clearKnowledgeBase is disabled, so no second operation can be started
    from the page. *)
Theorem loading_disables_every_operation (st : State) (tree : Node) (b : Node) :
  render st = Normal tree ->
  loading st = true ->
  In b (select (binds call_uploadDocuments) tree ++
        select (binds call_searchKnowledgeBase) tree ++
        select (binds call_clearKnowledgeBase) tree) ->
  attr "disabled" (attrs_of b) = Some (Dyn (JBool true)).
Proof.
  intros Hr Hl. destruct (render_inv _ Hr) as [bar [Hb ->]].
  rewrite !select_outside_header by reflexivity.
  rewrite !(bar_binds_only_clear _ Hb) by discriminate.
  rewrite cards_bind_upload, cards_bind_search.
  rewrite (select_none (binds call_clearKnowledgeBase) marks (cards_grid st)
             clear_is_mark (cards_have_no_marks st)).
  cbn [app]. rewrite app_nil_r.
  intros [<- | [<- | Hin]].
  - unfold upload_button. cbn. now rewrite Hl.
  - unfold search_button. cbn. now rewrite Hl.
  - destruct (stats_bar_cases _ Hb) as [[d [c [-> _]]] | [v [-> _]]].
    + cbn in Hin. destruct Hin as [<- | []]. cbn. now rewrite Hl.
    + destruct Hin.
Qed.

Lemma cards_status_message (st : State) :
  select (has_class "status-message") (cards_grid st) =
  match uploadStatus st with
  | [] => []
  | _ :: _ => [div "status-message" [Hole (JStr (uploadStatus st))]]
  end.
Proof.
  open_cards.
  destruct (loading st), (files st) as [|f fs], (uploadStatus st) as [|c us];
    cbn -[mapi lit of_Z trim]; try reflexivity;
    rewrite select_file_items; reflexivity || (intros; reflexivity).
Qed.

(** X12: the status an operation sets is what the page shows: the status
    message element is in the page exactly when [uploadStatus] is not the
    empty string, and it then holds that string and nothing else. *)
Theorem status_message_is_shown (st : State) (tree : Node) :
  render st = Normal tree ->
  (select (has_class "status-message") tree <> [] <-> uploadStatus st <> []) /\
  (uploadStatus st <> [] ->
   map children_of (select (has_class "status-message") tree) =
     [[Hole (JStr (uploadStatus st))]]).
Proof.
  intros Hr. destruct (render_inv _ Hr) as [bar [Hb ->]].
  rewrite select_outside_header by reflexivity.
  assert (Hbar : select (has_class "status-message") bar = []).
  { destruct (stats_bar_cases _ Hb) as [[d [c [-> _]]] | [v [-> _]]]; reflexivity. }
  rewrite Hbar, cards_status_message. cbn [app].
  destruct (uploadStatus st) as [|c us].
  - split; [split; intros H; now contradiction H | intros H; now contradiction H].
  - split; [split; discriminate | reflexivity].
Qed.

(** X13: the list under the file input has one item per selected file, in the
    order of the selection, each showing the file's name and keyed by its
    index. *)
Theorem selected_files_are_listed_in_order (st : State) (tree : Node) :
  render st = Normal tree ->
  map children_of (select (has_class "file-item") tree) =
    map (fun file => [Hole (JStr (name file))]) (files st) /\
  map (fun item => attr "key" (attrs_of item)) (select (has_class "file-item") tree) =
    map (fun i => Some (Dyn (JNum (of_Z (Z.of_nat i))))) (seq 0 (List.length (files st))).
Proof.
  intros Hr. destruct (render_inv _ Hr) as [bar [Hb ->]].
  rewrite select_outside_header by reflexivity.
  rewrite (bar_has_no_file_items _ Hb), cards_file_items. cbn [app].
  generalize 0%nat. induction (files st) as [|f fs IH]; intros i; [split; reflexivity|].
  cbn [mapi map List.length seq]. destruct (IH (S i)) as [IH1 IH2].
  rewrite IH1, IH2. split; reflexivity.
Qed.

End Controls.

(** ** The length of a list as a number *)

Lemma iter_pos_nat (A : Type) (f : A -> A) (p : positive) (x : A) :
  iter_pos f p x = Nat.iter (Pos.to_nat p) f x.
Proof.
  revert x. induction p as [p IH | p IH |]; intros x; cbn [iter_pos].
  - rewrite !IH, Pos2Nat.inj_xI, <- Nat.iter_add, <- Nat.iter_succ_r.
    f_equal. lia.
  - rewrite !IH, Pos2Nat.inj_xO, <- Nat.iter_add. f_equal. lia.
  - reflexivity.
Qed.

Lemma shr_1_positive (r : shr_record) (m : positive) :
  shr_m r = Z.pos m -> (2 <= Pos.to_nat (digits2_pos m))%nat ->
  exists m', shr_m (shr_1 r) = Z.pos m' /\
             Pos.to_nat (digits2_pos m') = (Pos.to_nat (digits2_pos m) - 1)%nat.
Proof.
  destruct r as [mr rr sr]. cbn [shr_m]. intros -> Hd.
  destruct m as [m | m |]; cbn [shr_1 shr_m digits2_pos] in *.
  - exists m. split; [reflexivity | lia].
  - exists m. split; [reflexivity | lia].
  - cbn in Hd. lia.
Qed.

Lemma shr_iter_positive (k : nat) : forall (r : shr_record) (m : positive),
  shr_m r = Z.pos m -> (k < Pos.to_nat (digits2_pos m))%nat ->
  exists m', shr_m (Nat.iter k shr_1 r) = Z.pos m' /\
             Pos.to_nat (digits2_pos m') = (Pos.to_nat (digits2_pos m) - k)%nat.
Proof.
  induction k as [|k IH]; intros r m Hm Hk.
  - exists m. split; [exact Hm | cbn; lia].
  - destruct (IH r m Hm ltac:(lia)) as [m1 [H1 D1]].
    destruct (@shr_1_positive _ _ H1 ltac:(lia)) as [m2 [H2 D2]].
    exists m2. cbn [Nat.iter]. split; [exact H2 | lia].
Qed.

Lemma shr_fexp_positive (m : positive) (e : Z) (l : location) :
  (-1074 <= e)%Z ->
  exists m', shr_m (fst (shr_fexp prec emax (Z.pos m) e l)) = Z.pos m' /\
             (-1074 <= snd (shr_fexp prec emax (Z.pos m) e l))%Z.
Proof.
  intros He. unfold shr_fexp, shr. cbn [Zdigits2].
  assert (Hrec : shr_m (shr_record_of_loc (Z.pos m) l) = Z.pos m)
    by (destruct l as [|[| |]]; reflexivity).
  destruct (fexp prec emax (Z.pos (digits2_pos m) + e) - e)%Z as [|k|k] eqn:En;
    cbn [fst snd]; eauto.
  rewrite iter_pos_nat.
  assert (Hk : (Pos.to_nat k < Pos.to_nat (digits2_pos m))%nat).
  { unfold fexp, SpecFloat.emin, prec, emax in En. lia. }
  destruct (@shr_iter_positive _ _ _ Hrec Hk) as [m' [Hm' _]].
  exists m'. split; [exact Hm' | lia].
Qed.

Lemma round_nearest_even_positive (m : positive) (l : location) :
  exists m', round_nearest_even (Z.pos m) l = Z.pos m'.
Proof.
  destruct l as [|[| |]]; cbn [round_nearest_even]; eauto.
  - destruct (Z.even (Z.pos m)); eauto. exists (m + 1)%positive. reflexivity.
  - exists (m + 1)%positive. reflexivity.
Qed.

(** A positive integer converts to a double above zero. *)
Lemma of_Z_positive (p : positive) :
  SFltb (S754_zero false) (of_Z (Z.pos p)) = true.
Proof.
  unfold of_Z, binary_normalize, binary_round.
  destruct (shl_align p 0 (fexp prec emax (Z.pos (digits2_pos p) + 0)))
    as [mz ez] eqn:Ea.
  assert (Hez : (-1074 <= ez)%Z).
  { unfold shl_align in Ea.
    destruct (fexp prec emax (Z.pos (digits2_pos p) + 0) - 0)%Z eqn:E;
      injection Ea as <- <-; unfold fexp, SpecFloat.emin, prec, emax in *; lia. }
  unfold binary_round_aux.
  destruct (shr_fexp_positive mz loc_Exact Hez) as [m1 [H1 He1]].
  destruct (shr_fexp prec emax (Z.pos mz) ez loc_Exact) as [r1 e1].
  cbn [fst snd] in *. rewrite H1.
  destruct (round_nearest_even_positive m1 (loc_of_shr_record r1)) as [m2 ->].
  destruct (shr_fexp_positive m2 loc_Exact He1) as [m3 [H3 _]].
  destruct (shr_fexp prec emax (Z.pos m2) e1 loc_Exact) as [r2 e2].
  cbn [fst] in *. rewrite H3.
  destruct (e2 <=? emax - prec)%Z; reflexivity.
Qed.

Lemma length_gt_zero {engine : Engine} (n : nat) :
  gt (JNum (of_Z (Z.of_nat n))) zero = Normal (0 <? n)%nat.
Proof.
  destruct n as [|n]; [reflexivity|].
  unfold gt, zero. cbn [ToPrimitive ToNumber cbind].
  rewrite Nat2Z.inj_succ, <- Zpos_P_of_succ_nat, of_Z_positive. reflexivity.
Qed.

(** ** The answer card *)

Section Card.
Context {engine : Engine} {call_errors : CallErrors}.

Lemma answer_card_inv (a : jsval) (card : Node) :
  answer_card a = Normal card ->
  exists answer_text sources badge,
    get a (lit "answer") = Normal answer_text /\
    sources_section a = Normal sources /\
    confidence_badge a = Normal badge /\
    card = card_node answer_text sources badge.
Proof.
  unfold answer_card.
  destruct (get a (lit "answer")) as [t|e]; cbn [cbind]; [|discriminate].
  destruct (sources_section a) as [s|e]; cbn [cbind]; [|discriminate].
  destruct (confidence_badge a) as [b|e]; cbn [cbind]; [|discriminate].
  intros [= <-]. exists t, s, b. auto.
Qed.

Lemma confidence_badge_cases (a : jsval) (badge : Node) :
  confidence_badge a = Normal badge ->
  (exists confidence label,
      get a (lit "confidence") = Normal confidence /\
      truthy confidence = true /\
      ToString confidence = Normal label /\
      badge = badge_node confidence label) \/
  (exists confidence,
      get a (lit "confidence") = Normal confidence /\
      truthy confidence = false /\
      badge = Hole confidence).
Proof.
  unfold confidence_badge.
  destruct (get a (lit "confidence")) as [c|e]; cbn [cbind]; [|discriminate].
  destruct (truthy c) eqn:Ht.
  - destruct (ToString c) as [label|e] eqn:Hs; cbn [cbind]; [|discriminate].
    intros [= <-]. left. exists c, label. auto.
  - intros [= <-]. right. exists c. auto.
Qed.

Lemma map_in_order_rows (items : list jsval) : forall (i : nat) (nodes : list Node),
  map_in_order source_item items i = Normal nodes ->
  exists rows, Forall2 shows items rows /\ nodes = mapi row_node rows i.
Proof.
  induction items as [|x items IH]; intros i nodes; cbn [map_in_order].
  - intros [= <-]. exists []. split; [constructor | reflexivity].
  - unfold source_item at 1.
    destruct (get x (lit "filename")) as [f|e] eqn:Hf; cbn [cbind]; [|discriminate].
    destruct (get x (lit "relevance_score")) as [r|e] eqn:Hr; cbn [cbind];
      [|discriminate].
    destruct (ToNumber r) as [n|e] eqn:Hn; cbn [cbind]; [|discriminate].
    destruct (map_in_order source_item items (S i)) as [rest|e] eqn:Hrest;
      cbn [cbind]; [|discriminate].
    intros [= <-]. destruct (IH _ _ Hrest) as [rows [Hrows ->]].
    exists ((f, n) :: rows). split; [|reflexivity].
    constructor; [|exact Hrows]. split; [exact Hf|]. exists r. auto.
Qed.

Lemma sources_section_cases (a : jsval) (node : Node) :
  sources_section a = Normal node ->
  (exists first rest nodes,
      get a (lit "sources") = Normal (JArr (first :: rest)) /\
      map_in_order source_item (first :: rest) 0 = Normal nodes /\
      node = section_node nodes) \/
  (exists v, node = Hole v /\
      forall first rest, get a (lit "sources") <> Normal (JArr (first :: rest))).
Proof.
  unfold sources_section.
  destruct (get a (lit "sources")) as [s|e]; cbn [cbind]; [|discriminate].
  destruct (truthy s) eqn:Ht.
  - destruct (get_length s) as [len|e] eqn:Hl; cbn [cbind]; [|discriminate].
    destruct (gt len zero) as [[|]|e] eqn:Hg; cbn [cbind]; try discriminate.
    + destruct (call_map s source_item) as [nodes|e] eqn:Hm; cbn [cbind];
        [|discriminate].
      intros [= <-]. left.
      destruct s as [| |b|x|str|items|props]; try discriminate.
      destruct items as [|first rest].
      * cbn in Hl. injection Hl as <-. cbv in Hg. discriminate.
      * exists first, rest, nodes. auto.
    + intros [= <-]. right. eexists. split; [reflexivity|].
      intros first rest [= ->]. cbn [get_length] in Hl. injection Hl as <-.
      assert (E : @Normal bool false = Normal true);
        [rewrite <- Hg; exact (length_gt_zero (List.length (first :: rest)))
        |discriminate].
  - intros [= <-]. right. eexists. split; [reflexivity|].
    intros first rest [= ->]. discriminate.
Qed.

Lemma select_rows (p : Node -> bool) (pick : jsval * number -> nat -> list Node)
    (rows : list (jsval * number)) :
  (forall row i, select p (row_node row i) = pick row i) ->
  forall i, flat_map (select p) (mapi row_node rows i) =
            flat_map (fun x => x) (mapi pick rows i).
Proof.
  intros Hp. induction rows as [|row rows IH]; intros i; [reflexivity|].
  cbn [mapi flat_map]. now rewrite Hp, IH.
Qed.

Lemma mapi_const (A B : Type) (f : A -> B) (l : list A) : forall i,
  mapi (fun x _ => f x) l i = map f l.
Proof. induction l as [|x l IH]; intros i; cbn; [|rewrite IH]; reflexivity. Qed.

Lemma flat_singletons (A B : Type) (f : A -> B) (l : list A) :
  flat_map (fun x => x) (map (fun x => [f x]) l) = map f l.
Proof. induction l as [|x l IH]; cbn; [|rewrite IH]; reflexivity. Qed.

Lemma select_card_class (c : string) (t : jsval) (s b : Node) :
  c <> "answer-card" -> c <> "answer-content" -> c <> "answer-text" ->
  select (has_class c) (card_node t s b) =
  select (has_class c) s ++ select (has_class c) b.
Proof.
  intros H1 H2 H3. unfold card_node, div. cbn [select flat_map has_class attr].
  cbn [String.eqb Ascii.eqb Bool.eqb].
  apply String.eqb_neq in H1, H2, H3. rewrite H1, H2, H3.
  cbn [app]. now rewrite app_nil_r.
Qed.

Lemma select_section_class (c : string) (nodes : list Node) :
  c <> "sources-section" -> c <> "sources-title" -> c <> "sources-list" ->
  select (has_class c) (section_node nodes) = flat_map (select (has_class c)) nodes.
Proof.
  intros H1 H2 H3. unfold section_node, div. cbn [select flat_map has_class attr].
  cbn [String.eqb Ascii.eqb Bool.eqb].
  apply String.eqb_neq in H1, H2, H3. rewrite H1, H2, H3.
  cbn [app]. now rewrite app_nil_r.
Qed.

Lemma select_badge_class (c : string) (a : jsval) (badge : Node) :
  confidence_badge a = Normal badge -> c <> "confidence-badge" ->
  select (has_class c) badge = [].
Proof.
  intros Hb Hc. apply String.eqb_neq in Hc.
  destruct (@confidence_badge_cases _ _ Hb) as
    [[v [label [_ [_ [_ ->]]]]] | [v [_ [_ ->]]]]; [|reflexivity].
  unfold badge_node, div. cbn [select flat_map has_class attr].
  cbn [String.eqb Ascii.eqb Bool.eqb]. now rewrite Hc.
Qed.

Lemma row_keys (rows : list (jsval * number)) : forall i,
  map (fun item => attr "key" (attrs_of item))
      (flat_map (select (has_class "source-item")) (mapi row_node rows i)) =
  map (fun k => Some (Dyn (JNum (of_Z (Z.of_nat k))))) (seq i (List.length rows)).
Proof.
  induction rows as [|row rows IH]; intros i; [reflexivity|].
  cbn [mapi flat_map List.length seq map].
  change (select (has_class "source-item") (row_node row i)) with [row_node row i].
  cbn [app map]. now rewrite IH.
Qed.

(** X14: the sources section is in the card exactly when [answer.sources] is
    an array that is not empty. Its items follow the array in order: each
    shows the [filename] of its source, and as score its
    [relevance_score] taken as a number, times 100, with one digit after
    the point; the items are keyed 0, 1, 2, ... *)
Theorem sources_are_listed_in_order (a : jsval) (card : Node) :
  answer_card a = Normal card ->
  (select (has_class "sources-section") card <> [] <->
   exists first rest, get a (lit "sources") = Normal (JArr (first :: rest))) /\
  (forall items, get a (lit "sources") = Normal (JArr items) ->
   exists rows,
     Forall2 shows items rows /\
     map children_of (select (has_class "source-name") card) =
       map (fun row => [Hole (fst row)]) rows /\
     map children_of (select (has_class "source-score") card) =
       map (fun row => [text "Score: ";
                        Hole (JStr (toFixed1 (times (snd row) (of_Z 100))));
                        text "%"]) rows /\
     map (fun item => attr "key" (attrs_of item))
         (select (has_class "source-item") card) =
       map (fun k => Some (Dyn (JNum (of_Z (Z.of_nat k)))))
           (seq 0 (List.length items))).
Proof.
  intros Hcard.
  destruct (@answer_card_inv _ _ Hcard) as [t [s [b [_ [Hs [Hb ->]]]]]].
  assert (Hsel : forall c,
    c <> "answer-card" -> c <> "answer-content" -> c <> "answer-text" ->
    c <> "confidence-badge" ->
    select (has_class c) (card_node t s b) = select (has_class c) s).
  { intros c H1 H2 H3 H4.
    rewrite select_card_class by assumption.
    now rewrite (@select_badge_class c _ _ Hb H4), app_nil_r. }
  split.
  - rewrite Hsel by discriminate.
    destruct (@sources_section_cases _ _ Hs) as
      [[first [rest [nodes [Hget [_ ->]]]]] | [v [-> Hno]]].
    + split; [eauto | discriminate].
    + split; [intros H; now contradiction H|].
      intros [first [rest Hget]]. now apply Hno in Hget.
  - intros items Hitems. rewrite !Hsel by discriminate.
    destruct (@sources_section_cases _ _ Hs) as
      [[first [rest [nodes [Hget [Hmap ->]]]]] | [v [-> Hno]]].
    + rewrite Hget in Hitems. injection Hitems as <-.
      destruct (@map_in_order_rows _ _ _ Hmap) as [rows [Hrows ->]].
      exists rows. split; [exact Hrows|].
      rewrite !select_section_class by discriminate.
      rewrite (Forall2_length Hrows). split; [|split].
      * rewrite (select_rows (has_class "source-name")
                   (fun row _ => [span "source-name" [Hole (fst row)]]))
          by reflexivity.
        rewrite (mapi_const (fun row => [span "source-name" [Hole (fst row)]])).
        rewrite (flat_singletons (fun row => span "source-name" [Hole (fst row)])).
        now rewrite map_map.
      * rewrite (select_rows (has_class "source-score")
                   (fun row _ =>
                      [span "source-score"
                         [text "Score: ";
                          Hole (JStr (toFixed1 (times (snd row) (of_Z 100))));
                          text "%"]]))
          by reflexivity.
        rewrite (mapi_const (fun row =>
                   [span "source-score"
                      [text "Score: ";
                       Hole (JStr (toFixed1 (times (snd row) (of_Z 100))));
                       text "%"]])).
        rewrite (flat_singletons (fun row =>
                   span "source-score"
                     [text "Score: ";
                      Hole (JStr (toFixed1 (times (snd row) (of_Z 100))));
                      text "%"])).
        now rewrite map_map.
      * apply row_keys.
    + destruct items as [|first rest]; [|now apply Hno in Hitems].
      exists []. repeat split; constructor.
Qed.

(** X15: the confidence badge is in the card exactly when [answer.confidence]
    is truthy; it then reads "Confidence:" followed by a span that holds a
    space and the value, and whose class is "confidence-value
    confidence-" followed by the value as a string. *)
Theorem confidence_badge_shows_the_label (a : jsval) (card : Node) :
  answer_card a = Normal card ->
  (select (has_class "confidence-badge") card <> [] <->
   exists confidence,
     get a (lit "confidence") = Normal confidence /\ truthy confidence = true) /\
  (forall confidence,
     get a (lit "confidence") = Normal confidence -> truthy confidence = true ->
     exists label,
       ToString confidence = Normal label /\
       flat_map children_of (select (has_class "confidence-badge") card) =
         [text "Confidence:";
          Elem "span"
            [("className", Dyn (JStr (lit "confidence-value confidence-" ++ label)))]
            [Hole (JStr (lit " ")); Hole confidence]]).
Proof.
  intros Hcard.
  destruct (@answer_card_inv _ _ Hcard) as [t [s [b [_ [Hs [Hb ->]]]]]].
  assert (Hsel : select (has_class "confidence-badge") (card_node t s b) =
                 select (has_class "confidence-badge") b).
  { rewrite select_card_class by discriminate.
    destruct (@sources_section_cases _ _ Hs) as
      [[first [rest [nodes [_ [Hmap ->]]]]] | [v [-> _]]]; [|reflexivity].
    rewrite select_section_class by discriminate.
    destruct (@map_in_order_rows _ _ _ Hmap) as [rows [_ ->]].
    rewrite (select_rows (has_class "confidence-badge") (fun _ _ => []))
      by reflexivity.
    rewrite (mapi_const (fun _ : jsval * number => @nil Node)).
    clear. induction rows; cbn; auto. }
  rewrite Hsel.
  destruct (@confidence_badge_cases _ _ Hb) as
    [[c [label [Hc [Ht [Hl ->]]]]] | [c [Hc [Ht ->]]]].
  - split.
    + split; [eauto | discriminate].
    + intros c' Hc' _. rewrite Hc in Hc'. injection Hc' as <-.
      exists label. split; [exact Hl | reflexivity].
  - split.
    + split; [intros H; now contradiction H|].
      intros [c' [Hc' Ht']]. congruence.
    + intros c' Hc' Ht'. congruence.
Qed.

(** X16: when [answer.sources] is truthy, is not an array and has a [length]
    above zero (a string that is not empty, say), drawing the card throws
    the TypeError of calling [map], and with it the whole page fails to
    render. *)
Theorem sources_that_are_no_array_break_the_page
    (st : State) (sources length : jsval) :
  truthy (answer st) = true ->
  get (answer st) (lit "sources") = Normal sources ->
  truthy sources = true ->
  (forall items, sources <> JArr items) ->
  get_length sources = Normal length ->
  gt length zero = Normal true ->
  answer_card (answer st) = Throw (mkError msg_not_a_function) /\
  forall bar, stats_bar st = Normal bar ->
              render_unfolded st = Throw (mkError msg_not_a_function).
Proof.
  intros Ha Hs Ht Hno Hl Hg.
  assert (Hcard : answer_card (answer st) = Throw (mkError msg_not_a_function)).
  { unfold answer_card.
    destruct (get_of_truthy (answer st) (lit "answer") Ha) as [t ->].
    cbn [cbind]. unfold sources_section. rewrite Hs. cbn [cbind].
    rewrite Ht, Hl. cbn [cbind]. rewrite Hg. cbn [cbind].
    destruct sources as [| |b|x|str|items|props]; try discriminate;
      try reflexivity.
    now contradiction (Hno items). }
  split; [exact Hcard|].
  intros bar Hbar. unfold render_unfolded, answer_section_unfolded.
  now rewrite Hbar, Ha, Hcard.
Qed.

(** X17: the card binds no event: whatever the answer, no element of the card
    calls a function of the component. So the page with the card drawn
    binds exactly the events of the page without it. *)
Theorem answer_card_binds_no_event (st : State) (full : Node) (h : Handler) :
  render_unfolded st = Normal full ->
  exists tree, render st = Normal tree /\
               select (binds h) full = select (binds h) tree.
Proof.
  unfold render_unfolded, render.
  destruct (stats_bar st) as [bar|e]; cbn [cbind]; [|discriminate].
  destruct (answer_section_unfolded st) as [card|e] eqn:Hc; cbn [cbind];
    [|discriminate].
  intros [= <-]. exists (page st bar). split; [reflexivity|].
  assert (Hcard : select (binds h) card = []).
  { unfold answer_section_unfolded in Hc.
    destruct (truthy (answer st)); [|injection Hc as <-; reflexivity].
    destruct (@answer_card_inv _ _ Hc) as [t [s [b [_ [Hs [Hb ->]]]]]].
    assert (Hsec : select (binds h) s = []).
    { destruct (@sources_section_cases _ _ Hs) as
        [[first [rest [nodes [_ [Hmap ->]]]]] | [v [-> _]]]; [|reflexivity].
      destruct (@map_in_order_rows _ _ _ Hmap) as [rows [_ ->]].
      unfold section_node, div. cbn [select flat_map binds existsb snd app].
      rewrite (select_rows (binds h) (fun _ _ => [])) by reflexivity.
      rewrite (mapi_const (fun _ : jsval * number => @nil Node)).
      clear. induction rows; cbn; auto. }
    assert (Hbadge : select (binds h) b = []).
    { destruct (@confidence_badge_cases _ _ Hb) as
        [[c [label [_ [_ [_ ->]]]]] | [c [_ [_ ->]]]]; reflexivity. }
    unfold card_node, div. cbn [select flat_map binds existsb snd app].
    now rewrite Hsec, Hbadge. }
  unfold page_with, page. rewrite !select_div. cbn [flat_map].
  rewrite !select_div. cbn [flat_map].
  rewrite Hcard.
  rewrite (answer_section_plain (binds h) st) by reflexivity.
  reflexivity.
Qed.

End Card.

Section Degraded.
Context {engine : Engine} {call_errors : CallErrors}.
Variable env : Env.

Lemma failed_search_answer (s : State) :
  blank (query s) = false ->
  ((exists e, network env (query_request env (query s)) = Throw e) \/
   (exists response,
      network env (query_request env (query s)) = Normal response /\
      (ok response = false \/ exists e, json response = Throw e))) ->
  exists text,
    answer (final (run (searchKnowledgeBase env) s)) =
    JObj [(lit "answer", JStr (lit "Error: " ++ text)); (lit "sources", JArr [])].
Proof.
  intros Hb Hfail.
  destruct (started_search s Hb) as [c [rest E]].
  destruct s as [fs q a l st us]. cbn [query] in *.
  revert Hfail. run_op. cbn [query]. rewrite E. cbn [truthy negb].
  destruct (network env (query_request env q)) as [response|e].
  - intros [[e He] | [r [Hr Hbad]]]; [discriminate|]. injection Hr as <-.
    destruct (json response) as [result|e].
    + destruct Hbad as [Hok | [e He]]; [|discriminate].
      rewrite Hok. cbn.
      destruct (get result (lit "detail")) as [detail|e]; cbn;
        [destruct (ToString detail) as [shown|e]; cbn|]; eexists; reflexivity.
    + cbn. eexists; reflexivity.
  - intros _. cbn. eexists; reflexivity.
Qed.

(** X18: the answer the component builds when a search fails can always be
    drawn: its card shows the text "Error: ..." and has neither a sources
    section nor a confidence badge. *)
Theorem failed_search_is_displayed (s : State) :
  blank (query s) = false ->
  ((exists e, network env (query_request env (query s)) = Throw e) \/
   (exists response,
      network env (query_request env (query s)) = Normal response /\
      (ok response = false \/ exists e, json response = Throw e))) ->
  exists text card,
    answer_section_unfolded (final (run (searchKnowledgeBase env) s)) = Normal card /\
    map children_of (select (has_class "answer-text") card) =
      [[Hole (JStr (lit "Error: " ++ text))]] /\
    select (has_class "sources-section") card = [] /\
    select (has_class "confidence-badge") card = [].
Proof.
  intros Hb Hfail.
  destruct (failed_search_answer s Hb Hfail) as [text Hanswer].
  exists text. unfold answer_section_unfolded. rewrite Hanswer.
  eexists. split; [reflexivity|]. repeat split.
Qed.

End Degraded.

(** ** The page as the component returns it *)


Section Drawn.
Context {engine : Engine} {call_errors : CallErrors}.
Variable env : Env.

























End Drawn.

(** ** String.prototype.trim *)

Lemma trimStart_prefix (q : jsstr) :
  exists before, q = before ++ trimStart q /\ blank before = true.
Proof.
  induction q as [|c q [before [Hq Hb]]]; cbn [trimStart].
  - exists []. auto.
  - destruct (is_white_space c) eqn:E.
    + exists (c :: before). cbn. rewrite E, <- Hq. auto.
    + exists []. auto.
Qed.

Lemma trimStart_head (q : jsstr) (c : code_unit) (rest : jsstr) :
  trimStart q = c :: rest -> is_white_space c = false.
Proof.
  induction q as [|d q IH]; cbn [trimStart]; [discriminate|].
  destruct (is_white_space d) eqn:E; auto.
  intros [= -> _]. exact E.
Qed.

(** X19: [trim] takes off white space at both ends and nothing else: the
    string is its trimmed form between two runs of white space, and the
    trimmed form, when not empty, neither starts nor ends with white
    space. Trimming twice changes nothing more. *)
Theorem trim_takes_off_surrounding_white_space (q : jsstr) :
  (exists before after,
     q = before ++ trim q ++ after /\ blank before = true /\ blank after = true) /\
  (forall c rest, trim q = c :: rest ->
     is_white_space c = false /\ is_white_space (last rest c) = false) /\
  trim (trim q) = trim q.
Proof.
  assert (Hends : forall c rest, trim q = c :: rest ->
     is_white_space c = false /\ is_white_space (last rest c) = false).
  { unfold trim, trimEnd. intros c rest Ht.
    destruct (trimStart_prefix (rev (trimStart q))) as [after [Hr Ha]].
    destruct (trimStart (rev (trimStart q))) as [|z tail] eqn:Ez;
      [discriminate|].
    pose proof (trimStart_head _ Ez) as Hz.
    assert (Hlast : last rest c = z).
    { assert (Hl : last (c :: rest) c = z).
      { rewrite <- Ht. cbn [rev]. now rewrite last_last. }
      destruct rest; exact Hl. }
    split; [|now rewrite Hlast].
    assert (Hq : trimStart q = rev (z :: tail) ++ rev after).
    { rewrite <- rev_app_distr, <- Hr. now rewrite rev_involutive. }
    rewrite Ht in Hq. cbn [app] in Hq.
    now apply (trimStart_head q Hq). }
  split; [|split; [exact Hends|]].
  - destruct (trimStart_prefix q) as [before [Hq Hb]].
    destruct (trimStart_prefix (rev (trimStart q))) as [after [Hr Ha]].
    exists before, (rev after). split; [|split; [exact Hb|]].
    + unfold trim, trimEnd. rewrite <- rev_app_distr, <- Hr, rev_involutive.
      exact Hq.
    + now rewrite blank_rev.
  - destruct (trim q) as [|c rest] eqn:Et; [reflexivity|].
    destruct (Hends c rest eq_refl) as [Hc Hl].
    unfold trim at 1, trimEnd. cbn [trimStart]. rewrite Hc.
    destruct (rev (c :: rest)) as [|z tail] eqn:Er.
    { apply (f_equal (@List.length _)) in Er. rewrite length_rev in Er.
      discriminate. }
    assert (Hz : z = last rest c).
    { assert (H : rev (z :: tail) = c :: rest)
        by (rewrite <- Er; apply rev_involutive).
      cbn [rev] in H.
      assert (Hl' : last (c :: rest) c = z) by (rewrite <- H; apply last_last).
      destruct rest; symmetry; exact Hl'. }
    cbn [trimStart]. rewrite Hz, Hl, <- Hz, <- Er. apply rev_involutive.
Qed.

(** *** Concrete runs *)

Module Runs.
Import Sample.
#[local] Existing Instance Sample.engine.

Example upload_reports_two_documents :
  uploadStatus (final (run (uploadDocuments (answering (Normal processed)))
                         (selected [notes_pdf]))) =
  check_mark :: lit " Successfully processed 2 documents (17 chunks)".
Proof. reflexivity. Qed.

Example search_request_text :
  requests (log (snd (run (searchKnowledgeBase (answering (Normal unavailable)))
                        (asking "What is ML?")))) =
  [{| url := lit "http://localhost:8000/query"; method := POST;
      headers := [(lit "Content-Type", lit "application/json")];
      body := Text (lit "{" ++ quoted "question" ++ lit ":" ++ quoted "What is ML?" ++
                    lit "," ++ quoted "top_k" ++ lit ":5," ++
                    quoted "include_sources" ++ lit ":true}") |}].
Proof. reflexivity. Qed.

Example search_failure_text :
  answer (final (run (searchKnowledgeBase (answering (Normal unavailable)))
                   (asking "What is ML?"))) =
  JObj [(lit "answer", JStr (lit "Error: Ollama is not running"));
        (lit "sources", JArr [])].
Proof. reflexivity. Qed.

Example trim_keeps_inner_spaces :
  trim (lit "  What is ML? " ++ [160; 10]%N) = lit "What is ML?".
Proof. reflexivity. Qed.

Example quote_escapes :
  QuoteJSONString ([double_quote; 10; 55357]%N ++ lit "a") =
  [double_quote; backslash; double_quote; backslash]%N ++ lit "n" ++
  [backslash]%N ++ lit "ud83da" ++ [double_quote]%N.
Proof. reflexivity. Qed.

Example zero_stats_render_as_the_number :
  render (engine := Sample.engine)
    {| files := []; query := []; answer := JNull; loading := false;
       stats := JNum (of_Z 0); uploadStatus := [] |} =
  Normal (page App.initial (Hole (JNum (of_Z 0)))).
Proof. reflexivity. Qed.

End Runs.

(** *** The properties at concrete inputs *)

#[local] Existing Instance Sample.engine.
#[local] Existing Instance Shown.call_errors.

Lemma upload_success_reports_statistics_witness :
  uploadStatus (final (run (uploadDocuments (Sample.answering (Normal Sample.processed)))
                         (Sample.selected [Sample.notes_pdf]))) =
  check_mark :: lit " Successfully processed " ++ lit "2" ++
  lit " documents (" ++ lit "17" ++ lit " chunks)".
Proof.
  apply (upload_success_reports_statistics
           (Sample.answering (Normal Sample.processed))
           (Sample.selected [Sample.notes_pdf])
           (response := Sample.processed)
           (result := JObj [(lit "message", JStr (lit "Documents processed"));
                            (lit "statistics",
                             JObj [(lit "documents", Sample.num 2);
                                   (lit "chunks", Sample.num 17)])])
           (statistics := JObj [(lit "documents", Sample.num 2);
                                (lit "chunks", Sample.num 17)])
           (documents := Sample.num 2) (chunks := Sample.num 17));
    solve [discriminate | reflexivity].
Defined.

(** A body shaped as the upload boundary is specified has no [statistics]:
    reading [documents] from it throws, and the status is the error text,
    not a success message with the counts 2 and 17. *)
Lemma upload_counts_not_read_from_documents_processed :
  let status :=
    uploadStatus (final (run (uploadDocuments
                                (Sample.answering (Normal Sample.processed_as_specified)))
                           (Sample.selected [Sample.notes_pdf]))) in
  status = ballot_x :: lit " Error: Cannot read properties of undefined (reading 'documents')" /\
  status <> check_mark :: lit " Successfully processed 2 documents (17 chunks)".
Proof. split; [reflexivity | discriminate]. Qed.

Lemma search_sends_the_query_object_witness :
  exists req,
    requests (log (snd (run (searchKnowledgeBase (Sample.answering (Normal Sample.unavailable)))
                          (Sample.asking "What is ML?")))) = [req] /\
    body req = Text (query_text (quoted "What is ML?")).
Proof.
  destruct (search_sends_the_query_object
              (Sample.answering (Normal Sample.unavailable))
              (Sample.asking "What is ML?") eq_refl)
    as [req [H1 [_ [_ [_ [H2 _]]]]]].
  exists req. split; [exact H1 | exact H2].
Defined.

Lemma confidence_follows_top_score_witness :
  Scorer.score [ {| Scorer.chunk := "notes.pdf#0"; Scorer.similarity_score := (7 # 10)%Q |} ]
  = Scorer.medium.
Proof.
  apply (proj1 (proj2 confidence_follows_top_score)). reflexivity.
Defined.



Lemma failed_search_gives_degraded_answer_witness :
  exists text,
    answer (final (run (searchKnowledgeBase (Sample.answering (Normal Sample.unavailable)))
                     (Sample.asking "What is ML?"))) =
    JObj [(lit "answer", JStr (lit "Error: " ++ text)); (lit "sources", JArr [])] /\
    text = lit "Ollama is not running".
Proof.
  destruct (failed_search_gives_degraded_answer
              (Sample.answering (Normal Sample.unavailable))
              (Sample.asking "What is ML?") eq_refl
              (or_intror (ex_intro _ Sample.unavailable
                            (conj eq_refl (or_introl eq_refl)))))
    as [_ [_ [text [Ha [_ [_ Hd]]]]]].
  exists text. split; [exact Ha|].
  apply (Hd Sample.unavailable
            (JObj [(lit "detail", JStr (lit "Ollama is not running"))])
            (JStr (lit "Ollama is not running"))); reflexivity.
Defined.

Lemma file_selector_lists_declared_formats_witness :
  exists req rest,
    requests (log (snd (run (uploadDocuments (Sample.answering (Normal Sample.processed)))
                          (final (run (handleFileChange [Sample.notes_pdf]) App.initial)))))
      = req :: rest /\
    to_upload req = [Sample.notes_pdf].
Proof.
  destruct (file_selector_lists_declared_formats
              (Sample.answering (Normal Sample.processed)) App.initial
              [Sample.notes_pdf])
    as [_ [_ Hsent]].
  destruct Hsent as [req [rest [H1 [_ [_ H2]]]]]; [discriminate|].
  exists req, rest. split; [exact H1 | exact H2].
Defined.

(** A change event that delivers setup.exe (the accept list does not bind
    the user) is kept, and the upload offers that file to /upload. *)
Lemma upload_offers_file_outside_declared_formats :
  let chosen := final (run (handleFileChange [Sample.setup_exe]) App.initial) in
  let sent :=
    requests (log (snd (run (uploadDocuments (Sample.answering (Normal Sample.processed)))
                          chosen))) in
  flat_map to_upload sent = [Sample.setup_exe] /\
  has_declared_extension (name Sample.setup_exe) = false /\
  has_declared_extension (name Sample.notes_pdf) = true.
Proof. repeat split. Qed.

Lemma confirmed_clear_sends_one_delete_witness :
  uploadStatus (final (run (clearKnowledgeBase (Sample.answering (Normal Sample.cleared)))
                         Sample.populated)) =
    check_mark :: lit " Knowledge base cleared" /\
  stats (final (run (clearKnowledgeBase (Sample.answering (Normal Sample.cleared)))
                  Sample.populated)) = JNull.
Proof.
  destruct (confirmed_clear_sends_one_delete
              (Sample.answering (Normal Sample.cleared)) Sample.populated eq_refl)
    as [_ Hok].
  destruct (Hok Sample.cleared
              (JObj [(lit "message", JStr (lit "Knowledge base cleared"))])
              eq_refl eq_refl eq_refl) as [H1 [H2 _]].
  split; [exact H1 | exact H2].
Defined.

(** An ok response without a JSON body (a 204, say): [response.json()]
    rejects before [response.ok] is looked at, so the status is the error
    text and stats and answer stay as they were. *)
Lemma ok_clear_without_json_body_is_reported_as_error :
  let after :=
    final (run (clearKnowledgeBase (Sample.answering (Normal Sample.no_content)))
             Sample.populated) in
  ok Sample.no_content = true /\
  uploadStatus after = ballot_x :: lit " Error: Unexpected end of JSON input" /\
  uploadStatus after <> check_mark :: lit " Knowledge base cleared" /\
  stats after = JObj Sample.counts /\
  answer after = answer Sample.populated.
Proof. repeat split. discriminate. Qed.

Lemma guards_keep_empty_requests_off_the_network_witness :
  requests (log (snd (run (uploadDocuments (Sample.answering (Normal Sample.processed)))
                        (Sample.selected [])))) = [] /\
  requests (log (snd (run (searchKnowledgeBase (Sample.answering (Normal Sample.processed)))
                        (Sample.asking "   ")))) = [] /\
  to_upload (upload_request (Sample.answering (Normal Sample.processed)) [Sample.notes_pdf])
    = [Sample.notes_pdf].
Proof.
  split; [|split].
  - rewrite (proj1 (guards_keep_empty_requests_off_the_network
                      (Sample.answering (Normal Sample.processed)) (Sample.selected []))
               eq_refl).
    reflexivity.
  - rewrite (proj1 (proj2 (guards_keep_empty_requests_off_the_network
                             (Sample.answering (Normal Sample.processed))
                             (Sample.asking "   ")))
               eq_refl).
    reflexivity.
  - apply (proj1 (proj2 (proj2 (guards_keep_empty_requests_off_the_network
                                  (Sample.answering (Normal Sample.processed))
                                  (Sample.selected [Sample.notes_pdf]))))
             (upload_request (Sample.answering (Normal Sample.processed))
                [Sample.notes_pdf])).
    + left. reflexivity.
    + reflexivity.
Defined.

Lemma loading_is_reset_after_every_operation_witness :
  loading (final (run (uploadDocuments (Sample.answering (Throw (mkError (lit "Failed to fetch")))))
                    (Sample.selected [Sample.notes_pdf]))) = false /\
  loading (final (run (searchKnowledgeBase (Sample.answering (Normal Sample.unavailable)))
                    (Sample.asking "What is ML?"))) = false /\
  loading (final (run (clearKnowledgeBase (Sample.answering (Normal Sample.no_content)))
                    Sample.populated)) = false.
Proof.
  split; [|split].
  - destruct (loading_is_reset_after_every_operation
                (Sample.answering (Throw (mkError (lit "Failed to fetch"))))
                (Sample.selected [Sample.notes_pdf])) as [_ [H _]].
    apply H. discriminate.
  - destruct (loading_is_reset_after_every_operation
                (Sample.answering (Normal Sample.unavailable))
                (Sample.asking "What is ML?")) as [_ [_ [H _]]].
    apply H. reflexivity.
  - destruct (loading_is_reset_after_every_operation
                (Sample.answering (Normal Sample.no_content)) Sample.populated)
      as [_ [_ [_ [H _]]]].
    apply H. reflexivity.
Defined.



(** *** The further properties at concrete inputs *)

Module MoreRuns.

Example card_of_two_sources :
  option_map (map children_of)
    (match answer_card Shown.answered with
     | Normal card => Some (select (has_class "source-score") card)
     | Throw _ => None
     end) =
  Some [[text "Score: "; Hole (JStr (lit "75.0")); text "%"];
        [text "Score: "; Hole (JStr (lit "50.0")); text "%"]].
Proof. reflexivity. Qed.

Example toFixed_rounds_a_tie_up :
  toFixed1 (double 1 (-2)) = lit "0.3" /\
  toFixed1 (double (-1) (-2)) = lit "-0.3" /\
  toFixed1 (double (-1) (-5)) = lit "-0.0" /\
  toFixed1 (times (double 1 0) (of_Z 100)) = lit "100.0".
Proof. repeat split. Qed.

Example trim_of_padded_question :
  trim ([32; 9]%N ++ lit "a b" ++ [160; 10]%N) = lit "a b".
Proof. reflexivity. Qed.

End MoreRuns.

Lemma upload_empties_selection_only_on_success_witness :
  files (final (run (uploadDocuments (Sample.answering (Normal Sample.unavailable)))
                  Shown.ready)) = files Shown.ready /\
  files (final (run (uploadDocuments (Sample.answering (Normal Sample.processed)))
                  Shown.ready)) = [].
Proof.
  split.
  - destruct (@upload_empties_selection_only_on_success Sample.engine
                (Sample.answering (Normal Sample.unavailable)) Shown.ready)
      as [_ [_ [[d [c [Hs _]]] | [text [_ [Hf _]]]]]];
      [discriminate | discriminate | exact Hf].
  - destruct (@upload_empties_selection_only_on_success Sample.engine
                (Sample.answering (Normal Sample.processed)) Shown.ready)
      as [_ [_ [[d [c [_ [Hf _]]]] | [text [Hs _]]]]];
      [discriminate | exact Hf | discriminate].
Defined.

Lemma successful_upload_refreshes_stats_witness :
  log (snd (run (uploadDocuments (Sample.answering (Normal Sample.processed)))
              Shown.ready)) =
  [Fetch (upload_request (Sample.answering (Normal Sample.processed))
            (files Shown.ready));
   SetValue (lit "file-upload") [];
   Fetch (stats_request (Sample.answering (Normal Sample.processed)))].
Proof.
  apply (@successful_upload_refreshes_stats Sample.engine
           (Sample.answering (Normal Sample.processed)) Shown.ready
           Sample.processed
           (JObj [(lit "message", JStr (lit "Documents processed"));
                  (lit "statistics",
                   JObj [(lit "documents", Sample.num 2);
                         (lit "chunks", Sample.num 17)])])
           (JObj [(lit "documents", Sample.num 2); (lit "chunks", Sample.num 17)])
           (Sample.num 2) (Sample.num 17) (lit "2") (lit "17")
           Sample.processed
           (JObj [(lit "message", JStr (lit "Documents processed"));
                  (lit "statistics",
                   JObj [(lit "documents", Sample.num 2);
                         (lit "chunks", Sample.num 17)])]));
    solve [discriminate | reflexivity].
Defined.

Lemma stats_fetch_keeps_state_on_failure_witness :
  final (run (fetchStats (Sample.answering (Normal Sample.no_content)))
           Sample.populated) = Sample.populated /\
  stats (final (run (fetchStats (Sample.answering (Normal Sample.unavailable)))
                  Sample.populated)) =
    JObj [(lit "detail", JStr (lit "Ollama is not running"))] /\
  fst (fetchStats_resumed (Normal Sample.no_content)
         {| ui := Sample.populated; log := []; pending := [] |}) = Normal tt.
Proof.
  split; [|split].
  - destruct (@stats_fetch_keeps_state_on_failure
                (Sample.answering (Normal Sample.no_content)) Sample.populated)
      as [_ [_ [_ Hfail]]].
    apply (Hfail (mkError (lit "Unexpected end of JSON input"))).
    right. exists Sample.no_content. split; reflexivity.
  - destruct (@stats_fetch_keeps_state_on_failure
                (Sample.answering (Normal Sample.unavailable)) Sample.populated)
      as [_ [_ [Hok _]]].
    destruct (Hok Sample.unavailable
                (JObj [(lit "detail", JStr (lit "Ollama is not running"))])
                eq_refl eq_refl) as [-> _].
    reflexivity.
  - destruct (@stats_fetch_keeps_state_on_failure
                (Sample.answering (Normal Sample.no_content)) Sample.populated)
      as [_ [Hends _]].
    apply Hends.
Defined.

Lemma successful_search_stores_the_body_witness :
  answer (final (run (searchKnowledgeBase
                        (Sample.answering (Normal (Shown.answer_of Shown.answered))))
                   (Sample.asking "What color is the sky?"))) = Shown.answered.
Proof.
  rewrite (@successful_search_stores_the_body Sample.engine
             (Sample.answering (Normal (Shown.answer_of Shown.answered)))
             (Sample.asking "What color is the sky?")
             (Shown.answer_of Shown.answered) Shown.answered
             eq_refl eq_refl eq_refl eq_refl).
  reflexivity.
Defined.

Lemma clear_resets_only_on_success_witness :
  requests (log (snd (run (clearKnowledgeBase (Sample.answering (Normal Sample.unavailable)))
                        Sample.populated))) =
    [clear_request (Sample.answering (Normal Sample.unavailable))] /\
  stats (final (run (clearKnowledgeBase (Sample.answering (Normal Sample.unavailable)))
                  Sample.populated)) = stats Sample.populated.
Proof.
  destruct (@clear_resets_only_on_success Sample.engine
              (Sample.answering (Normal Sample.unavailable)) Sample.populated)
    as [Hyes _].
  destruct (Hyes eq_refl) as [Hreq [[Hs _] | [text [_ [Hst _]]]]].
  - discriminate.
  - split; [exact Hreq | exact Hst].
Defined.

Lemma only_four_endpoints_witness :
  In (url (clear_request (Sample.answering (Normal Sample.cleared))),
      method (clear_request (Sample.answering (Normal Sample.cleared))))
     [(API_URL (Sample.answering (Normal Sample.cleared)) ++ lit "/upload", POST);
      (API_URL (Sample.answering (Normal Sample.cleared)) ++ lit "/query", POST);
      (API_URL (Sample.answering (Normal Sample.cleared)) ++ lit "/stats", GET);
      (API_URL (Sample.answering (Normal Sample.cleared)) ++ lit "/clear", DELETE)].
Proof.
  apply (@only_four_endpoints Sample.engine
           (Sample.answering (Normal Sample.cleared)) Sample.populated).
  apply in_or_app. right. apply in_or_app. right. apply in_or_app. left.
  left. reflexivity.
Defined.

Lemma enabled_buttons_pass_the_guards_witness :
  exists rest,
    log (snd (run (uploadDocuments (Sample.answering (Normal Sample.processed)))
                Shown.ready)) =
    Fetch (upload_request (Sample.answering (Normal Sample.processed))
             (files Shown.ready)) :: rest.
Proof.
  destruct (@enabled_buttons_pass_the_guards Sample.engine
              (Sample.answering (Normal Sample.processed))
              Shown.ready (page Shown.ready (Hole JNull)) eq_refl)
    as [up [se [up_off [se_off [Hup [_ [Hattr [_ [Hiff [_ [Hsend _]]]]]]]]]]].
  apply Hsend. apply Hiff. split; [reflexivity | discriminate].
Defined.

Lemma loading_disables_every_operation_witness :
  forallb (fun b => match attr "disabled" (attrs_of b) with
                    | Some (Dyn (JBool true)) => true
                    | _ => false
                    end)
    (select (binds call_clearKnowledgeBase)
       (page Shown.busy
          (stats_bar_element Shown.busy (Sample.num 2) (Sample.num 17)))) = true /\
  attr "disabled"
    (attrs_of (stats_bar_element Shown.busy (Sample.num 2) (Sample.num 17)))
  = None.
Proof.
  split; [|reflexivity].
  apply forallb_forall. intros b Hb.
  rewrite (@loading_disables_every_operation Sample.engine Shown.busy
             (page Shown.busy
                (stats_bar_element Shown.busy (Sample.num 2) (Sample.num 17)))
             b eq_refl eq_refl).
  - reflexivity.
  - apply in_or_app. right. apply in_or_app. right. exact Hb.
Defined.

Lemma selected_files_are_listed_in_order_witness :
  map children_of
      (select (has_class "file-item") (page Shown.ready (Hole JNull))) =
  [[Hole (JStr (lit "notes.pdf"))]; [Hole (JStr (lit "setup.exe"))]].
Proof.
  destruct (@selected_files_are_listed_in_order Sample.engine
              Shown.ready (page Shown.ready (Hole JNull)) eq_refl)
    as [Hnames _].
  rewrite Hnames. reflexivity.
Defined.

Lemma sources_are_listed_in_order_witness :
  exists card rows,
    answer_card Shown.answered = Normal card /\
    Forall2 shows
      [Shown.source "sky.txt" (double 3 (-2)); Shown.source "water.txt" (double 1 (-1))]
      rows /\
    map children_of (select (has_class "source-name") card) =
      map (fun row => [Hole (fst row)]) rows.
Proof.
  destruct (answer_card Shown.answered) as [card|e] eqn:Hcard;
    [|vm_compute in Hcard; discriminate].
  destruct (@sources_are_listed_in_order Sample.engine Shown.call_errors
              Shown.answered card Hcard) as [_ Hrows].
  destruct (Hrows _ eq_refl) as [rows [Hshows [Hnames _]]].
  exists card, rows. split; [reflexivity|]. split; [exact Hshows | exact Hnames].
Defined.

Lemma confidence_badge_shows_the_label_witness :
  exists card,
    answer_card Shown.answered = Normal card /\
    select (has_class "confidence-badge") card <> [].
Proof.
  destruct (answer_card Shown.answered) as [card|e] eqn:Hcard;
    [|vm_compute in Hcard; discriminate].
  exists card. split; [reflexivity|].
  apply (proj1 (@confidence_badge_shows_the_label Sample.engine Shown.call_errors
                  Shown.answered card Hcard)).
  exists (JStr (lit "high")). split; reflexivity.
Defined.

Lemma sources_that_are_no_array_break_the_page_witness :
  render_unfolded (Shown.showing Shown.misshapen) =
  Throw (mkError (lit "answer.sources.map is not a function")).
Proof.
  destruct (@sources_that_are_no_array_break_the_page Sample.engine
              Shown.call_errors (Shown.showing Shown.misshapen)
              (JStr (lit "sky.txt")) (Sample.num 7)
              eq_refl eq_refl eq_refl) as [_ Hpage].
  - intros items. discriminate.
  - reflexivity.
  - reflexivity.
  - apply (Hpage (stats_bar_element (Shown.showing Shown.misshapen)
                    (Sample.num 2) (Sample.num 17))).
    reflexivity.
Defined.

Lemma answer_card_binds_no_event_witness :
  exists full tree,
    render_unfolded (Shown.showing Shown.answered) = Normal full /\
    render (Shown.showing Shown.answered) = Normal tree /\
    select (binds call_clearKnowledgeBase) full =
    select (binds call_clearKnowledgeBase) tree.
Proof.
  destruct (render_unfolded (Shown.showing Shown.answered)) as [full|e] eqn:Hfull;
    [|vm_compute in Hfull; discriminate].
  destruct (@answer_card_binds_no_event Sample.engine Shown.call_errors
              (Shown.showing Shown.answered) full
              call_clearKnowledgeBase Hfull) as [tree [Hr Hsel]].
  exists full, tree. split; [reflexivity|]. split; [exact Hr | exact Hsel].
Defined.

Lemma failed_search_is_displayed_witness :
  exists text card,
    answer_section_unfolded
      (final (run (searchKnowledgeBase (Sample.answering (Normal Sample.unavailable)))
                (Sample.asking "What is ML?"))) = Normal card /\
    map children_of (select (has_class "answer-text") card) =
      [[Hole (JStr (lit "Error: " ++ text))]].
Proof.
  destruct (@failed_search_is_displayed Sample.engine Shown.call_errors
              (Sample.answering (Normal Sample.unavailable))
              (Sample.asking "What is ML?") eq_refl
              (or_intror (ex_intro _ Sample.unavailable
                            (conj eq_refl (or_introl eq_refl)))))
    as [text [card [Hcard [Htext _]]]].
  exists text, card. split; [exact Hcard | exact Htext].
Defined.

Lemma trim_takes_off_surrounding_white_space_witness :
  is_white_space 97%N = false /\ is_white_space (last (lit " b") 97%N) = false.
Proof.
  apply (proj1 (proj2 (trim_takes_off_surrounding_white_space
                          ([32; 9]%N ++ lit "a b" ++ [160; 10]%N)))).
  reflexivity.
Defined.

Lemma error_status_shows_the_detail_witness :
  uploadStatus (final (run (uploadDocuments (Sample.answering (Normal Sample.unavailable)))
                         Shown.ready)) =
  ballot_x :: lit " Error: " ++ lit "Ollama is not running".
Proof.
  destruct (@error_status_shows_the_detail Sample.engine
              (Sample.answering (Normal Sample.unavailable)) Shown.ready
              Sample.unavailable
              (JObj [(lit "detail", JStr (lit "Ollama is not running"))])
              (JStr (lit "Ollama is not running")) (lit "Ollama is not running")
              eq_refl eq_refl eq_refl eq_refl) as [Hup _].
  apply Hup; [discriminate | reflexivity].
Defined.



Lemma status_message_is_shown_witness :
  map children_of
      (select (has_class "status-message") (page Shown.busy (Hole JNull))) =
  [[Hole (JStr (lit "Uploading and processing documents..."))]].
Proof.
  destruct (@status_message_is_shown Sample.engine
              {| files := files Shown.busy; query := query Shown.busy;
                 answer := JNull; loading := true; stats := JNull;
                 uploadStatus := uploadStatus Shown.busy |}
              (page Shown.busy (Hole JNull)) eq_refl) as [_ Hshown].
  apply Hshown. discriminate.
Defined.
